(** * frd_calculator: recipe cost apportionment

    A shallow embedding of [frd_calculator.py] and the properties of its
    unit-conversion and cost-apportionment core.

    Conventions of the embedding.
    - Python [float] values are idealised as exact rationals ([Qc], the
      canonical rationals, so that equality is Leibniz equality and every
      definition still computes).  Rounding, overflow and NaN are outside
      that model; the module [Binary64] repeats the arithmetic path on
      IEEE doubles for the places where rounding decides what happens.
    - Python [str] values are [string]s of 8-bit characters; [Str.lower]
      and [Str.strip] are the ASCII fragments of the Python methods, which
      is all the rate rules can tell apart.  The interview, whose test for
      "done" does depend on the rest, takes the two methods as parameters.
    - Exceptions are values of type [Exn]; a function that may raise returns
      a [result].
    - Objects mutated in place ([Cost], [Ingredient]) are passed and returned
      explicitly.  Every [Ingredient] and [Cost] of a recipe is a fresh
      object ([read_recipe], [add_costs]), so there is no aliasing to track.
    - The [pint] unit registry is an external library: it is a parameter
      [ureg] of every function that builds one, and [Pint.default_registry]
      is a table of the units the program is used with. *)

From Stdlib Require Import ZArith QArith Qcanon Bool List String Ascii Lia.
From Stdlib Require Floats Uint63.
Import ListNotations.

Local Open Scope string_scope.
Local Open Scope Qc_scope.

(** ** Exceptions and results *)

Inductive Exn : Type :=
| UndefinedUnitError (name : string)
| DimensionalityError (src dst : string)
| ZeroDivisionError
| AttributeError.

Inductive result (A : Type) : Type :=
| Ok (a : A)
| Raise (e : Exn).
Arguments Ok {A} a.
Arguments Raise {A} e.

Definition bind {A B : Type} (r : result A) (k : A -> result B) : result B :=
  match r with
  | Ok a => k a
  | Raise e => Raise e
  end.

Notation "x <- r ;; k" := (bind r (fun x => k))
  (at level 61, r at next level, right associativity).

(** ** Python string methods used by the program *)

Module Str.

Definition lower_char (c : ascii) : ascii :=
  let n := N_of_ascii c in
  if (65 <=? n)%N && (n <=? 90)%N then ascii_of_N (n + 32) else c.

(** [str.lower()] *)
Fixpoint lower (s : string) : string :=
  match s with
  | EmptyString => EmptyString
  | String c r => String (lower_char c) (lower r)
  end.

(** The ASCII characters [str.strip()] removes: tab, line feed, vertical
    tab, form feed, carriage return, the four separators and the space. *)
Definition is_space (c : ascii) : bool :=
  let n := N_of_ascii c in
  ((9 <=? n)%N && (n <=? 13)%N) || ((28 <=? n)%N && (n <=? 32)%N).

Fixpoint lstrip (s : string) : string :=
  match s with
  | EmptyString => EmptyString
  | String c r => if is_space c then lstrip r else s
  end.

Fixpoint rstrip (s : string) : string :=
  match s with
  | EmptyString => EmptyString
  | String c r =>
      match rstrip r with
      | EmptyString => if is_space c then EmptyString else String c EmptyString
      | r' => String c r'
      end
  end.

(** [str.strip()] *)
Definition strip (s : string) : string := rstrip (lstrip s).

(** [needle in hay] *)
Fixpoint contains (needle hay : string) : bool :=
  match hay with
  | EmptyString => prefix needle EmptyString
  | String _ r => prefix needle hay || contains needle r
  end.

End Str.

(** ** The unit registry of [pint] *)

Module Pint.

(** Exponents of the base dimensions [length], [mass] and [time]. *)
Record Dimensionality : Type := mkDim
  { d_length : Z; d_mass : Z; d_time : Z }.

Definition dim_eqb (a b : Dimensionality) : bool :=
  (d_length a =? d_length b)%Z && (d_mass a =? d_mass b)%Z
  && (d_time a =? d_time b)%Z.

Definition mass : Dimensionality := mkDim 0 1 0.
Definition volume : Dimensionality := mkDim 3 0 0.
Definition length : Dimensionality := mkDim 1 0 0.
Definition dimensionless : Dimensionality := mkDim 0 0 0.

(** A unit: its dimensionality and its size in the root unit of that
    dimensionality. *)
Record Unit : Type := mkUnit
  { dimensionality : Dimensionality; factor : Qc }.

Definition UnitRegistry : Type := list (string * Unit).

Fixpoint lookup (ureg : UnitRegistry) (name : string) : option Unit :=
  match ureg with
  | [] => None
  | (n, u) :: rest => if (n =? name)%string then Some u else lookup rest name
  end.

(** [ureg[name]] and [ureg.name]: the unit of that name. *)
Definition getitem (ureg : UnitRegistry) (name : string) : result Unit :=
  match lookup ureg name with
  | Some u => Ok u
  | None => Raise (UndefinedUnitError name)
  end.

(** A quantity: a magnitude and the unit it is expressed in. *)
Record Quantity : Type := mkQuantity
  { magnitude : Qc; units : string; unit_of : Unit }.

(** [x * ureg[name]] *)
Definition quantity (ureg : UnitRegistry) (x : Qc) (name : string)
  : result Quantity :=
  u <- getitem ureg name ;;
  Ok (mkQuantity x name u).

(** [q.to(target)] *)
Definition to (ureg : UnitRegistry) (q : Quantity) (target : string)
  : result Quantity :=
  u <- getitem ureg target ;;
  if dim_eqb (dimensionality (unit_of q)) (dimensionality u)
  then Ok (mkQuantity (magnitude q * (factor (unit_of q) / factor u)) target u)
  else Raise (DimensionalityError (units q) target).

(** What the program relies on: the names it uses itself are defined with
    the expected dimensionality, and every unit has a positive size. *)
Definition has_dim (ureg : UnitRegistry) (name : string) (d : Dimensionality)
  : bool :=
  match lookup ureg name with
  | Some u => dim_eqb (dimensionality u) d
  | None => false
  end.

Definition positive_size (u : Unit) : bool :=
  match factor u ?= 0 with
  | Gt => true
  | _ => false
  end.

Definition registry_ok (ureg : UnitRegistry) : bool :=
  forallb (fun e => positive_size (snd e)) ureg
  && has_dim ureg "lbs" mass
  && has_dim ureg "pounds" mass
  && has_dim ureg "cups" volume.

(** Sizes in grams (mass), litres (volume) and metres (length). *)
Definition pound : Unit := mkUnit mass (Q2Qc 453.59237).
Definition ounce : Unit := mkUnit mass (Q2Qc 28.349523125).
Definition gram : Unit := mkUnit mass (Q2Qc 1).
Definition kilogram : Unit := mkUnit mass (Q2Qc 1000).
Definition cup : Unit := mkUnit volume (Q2Qc 0.2365882365).
Definition tablespoon : Unit := mkUnit volume (Q2Qc 0.01478676478125).
Definition teaspoon : Unit := mkUnit volume (Q2Qc 0.00492892159375).
Definition liter : Unit := mkUnit volume (Q2Qc 1).
Definition meter : Unit := mkUnit length (Q2Qc 1).
Definition count : Unit := mkUnit dimensionless (Q2Qc 1).

Definition default_registry : UnitRegistry :=
  [ ("pound", pound); ("pounds", pound); ("lb", pound); ("lbs", pound);
    ("ounce", ounce); ("ounces", ounce); ("oz", ounce);
    ("gram", gram); ("grams", gram); ("g", gram);
    ("kilogram", kilogram); ("kilograms", kilogram); ("kg", kilogram);
    ("cup", cup); ("cups", cup);
    ("tablespoon", tablespoon); ("tablespoons", tablespoon);
    ("teaspoon", teaspoon); ("teaspoons", teaspoon);
    ("liter", liter); ("liters", liter);
    ("meter", meter); ("meters", meter);
    ("count", count) ].

End Pint.

(** ** Data model *)

Module Cost.
(** [class Cost]: what was paid ([money]) for how much ([quantity]
    [measure]) of an item. *)
Record t : Type := mk
  { money : Qc; quantity : Qc; measure : string }.
End Cost.

Module Ingredient.
(** [class Ingredient]; [cost] and [price] start as [None]. *)
Record t : Type := mk
  { quantity : Qc; measure : string; thing : string;
    cost : option Cost.t; price : option Qc }.

Definition new (quantity : Qc) (measure thing : string) : t :=
  mk quantity measure thing None None.

Definition set_cost (item : t) (c : Cost.t) : t :=
  mk (quantity item) (measure item) (thing item) (Some c) (price item).

Definition set_price (item : t) (p : Qc) : t :=
  mk (quantity item) (measure item) (thing item) (cost item) (Some p).
End Ingredient.

Module Recipe.
Record t : Type := mk
  { name : string; ingredients : list Ingredient.t }.
End Recipe.

(** ** The density heuristic *)

Section Calculator.

Variable ureg : Pint.UnitRegistry.

(** [convert_mass_to_volume(cost, rate)]: the cost it leaves in memory. *)
Definition convert_mass_to_volume (cost : Cost.t) (rate : Qc)
  : result Cost.t :=
  orig <- Pint.quantity ureg (Cost.quantity cost) (Cost.measure cost) ;;
  orig_in_lbs <- Pint.to ureg orig "pounds" ;;
  let qty_in_pounds := Pint.magnitude orig_in_lbs in
  let cups := qty_in_pounds * rate in
  Ok (Cost.mk (Cost.money cost) cups "cups").

(** The rate chosen inside [check_special_cases] for an ingredient name:
    the default and the [if]/[elif] chain that overrides it. *)
Definition conversion_rate (thing : string) : Qc :=
  let comparison_name := Str.strip (Str.lower thing) in
  if Str.contains "flour" comparison_name then Q2Qc 3.33
  else if ("butter" =? comparison_name)%string then Q2Qc 2.0
  else if Str.contains "brown sugar" comparison_name then Q2Qc 2.25
  else if Str.contains "sugar" comparison_name then Q2Qc 2.0
  else if Str.contains "cocoa" comparison_name then Q2Qc 3.55
  else Q2Qc 2.0.

(** [ureg[measure].dimensionality == ureg.lbs.dimensionality] *)
Definition is_mass (measure : string) : result bool :=
  u <- Pint.getitem ureg measure ;;
  lbs <- Pint.getitem ureg "lbs" ;;
  Ok (Pint.dim_eqb (Pint.dimensionality u) (Pint.dimensionality lbs)).

(** The guard of [check_special_cases]; [and] evaluates its right operand
    only when the left one is true. *)
Definition special_case (cost_measure item_measure : string) : result bool :=
  cost_is_mass <- is_mass cost_measure ;;
  if cost_is_mass : bool then
    item_is_mass <- is_mass item_measure ;;
    Ok (negb item_is_mass)
  else Ok false.

(** [check_special_cases(item)] *)
Definition check_special_cases (item : Ingredient.t) : result Ingredient.t :=
  match Ingredient.cost item with
  | None => Raise AttributeError
  | Some cost =>
      special <- special_case (Cost.measure cost) (Ingredient.measure item) ;;
      if special : bool then
        cost' <- convert_mass_to_volume cost (conversion_rate (Ingredient.thing item)) ;;
        Ok (Ingredient.set_cost item cost')
      else Ok item
  end.

(** ** Apportionment *)

(** What one turn of the loop of [calculate_recipe_prices] ends with. *)
Inductive Outcome : Type :=
| Priced
| Skipped (dm : Exn)
| Raised (e : Exn).

(** The loop body: the ingredient as it is left in memory, and how the
    turn ended.  Only a [DimensionalityError] of [bulk.to] is caught. *)
Definition price_item (item : Ingredient.t) : Ingredient.t * Outcome :=
  match check_special_cases item with
  | Raise e => (item, Raised e)
  | Ok item =>
      match Ingredient.cost item with
      | None => (item, Raised AttributeError)
      | Some cost =>
          match Pint.quantity ureg (Cost.quantity cost) (Cost.measure cost) with
          | Raise e => (item, Raised e)
          | Ok bulk =>
              match Pint.to ureg bulk (Ingredient.measure item) with
              | Raise (DimensionalityError src dst) =>
                  (item, Skipped (DimensionalityError src dst))
              | Raise e => (item, Raised e)
              | Ok smaller =>
                  if Qc_eq_bool (Pint.magnitude smaller) 0
                  then (item, Raised ZeroDivisionError)
                  else
                    let used_fraction :=
                      Ingredient.quantity item / Pint.magnitude smaller in
                    (Ingredient.set_price item (used_fraction * Cost.money cost),
                     Priced)
              end
          end
      end
  end.

(** Standard output, line by line.  [Money label x] is the line
    [f"{label}${x:.2f}"]; [Shown e] is [print(e)]. *)
Inductive Line : Type :=
| Text (s : string)
| Money (label : string) (amount : Qc)
| Shown (e : Exn).

(** A run of a procedure over the ingredients: the ingredients as left in
    memory, what was printed, and the exception that ended it, if any. *)
Record Run : Type := mkRun
  { memory : list Ingredient.t; stdout : list Line; raised : option Exn }.

Definition after (item : Ingredient.t) (out : list Line) (r : Run) : Run :=
  mkRun (item :: memory r) (out ++ stdout r) (raised r).

Fixpoint calculate_items (items : list Ingredient.t) : Run :=
  match items with
  | [] => mkRun [] [] None
  | item :: rest =>
      match price_item item with
      | (item', Priced) => after item' [] (calculate_items rest)
      | (item', Skipped dm) => after item' [Shown dm] (calculate_items rest)
      | (item', Raised e) => mkRun (item' :: rest) [] (Some e)
      end
  end.

(** [calculate_recipe_prices(recipe)] *)
Definition calculate_recipe_prices (recipe : Recipe.t) : Run :=
  calculate_items (Recipe.ingredients recipe).

End Calculator.

(** ** Reporting *)

(** Truth value of [ingredient.price]: [None] and [0.0] are false. *)
Definition truthy (price : option Qc) : bool :=
  match price with
  | None => false
  | Some p => negb (Qc_eq_bool p 0)
  end.

(** The loop of [print_recipe_costs]: the lines printed and the total. *)
Fixpoint print_items (items : list Ingredient.t) (total : Qc) : list Line * Qc :=
  match items with
  | [] => ([], total)
  | ingredient :: rest =>
      let unpriced :=
        let (out, total') := print_items rest total in
        (Text ("Don't have price for " ++ Ingredient.thing ingredient) :: out, total') in
      match truthy (Ingredient.price ingredient), Ingredient.price ingredient with
      | true, Some p =>
          let (out, total') := print_items rest (total + p) in
          (Money (Ingredient.thing ingredient ++ ": ") p :: out, total')
      | _, _ => unpriced
      end
  end.

(** [print_recipe_costs(recipe)] *)
Definition print_recipe_costs (recipe : Recipe.t) : list Line :=
  let (out, total) := print_items (Recipe.ingredients recipe) 0 in
  Text ("Costs for recipe " ++ Recipe.name recipe ++ ":") :: out
  ++ [Money "Total: " total].

(** The Conversion Engine of the specification: [x] [src] expressed in
    [dst], as [calculate_recipe_prices] computes it for the bulk quantity. *)
Definition convert (ureg : Pint.UnitRegistry) (x : Qc) (src dst : string)
  : result Qc :=
  q <- Pint.quantity ureg x src ;;
  q' <- Pint.to ureg q dst ;;
  Ok (Pint.magnitude q').

(** Sum of the prices that are present. *)
Fixpoint sum_prices (items : list Ingredient.t) : Qc :=
  match items with
  | [] => 0
  | item :: rest =>
      match Ingredient.price item with
      | Some p => p + sum_prices rest
      | None => sum_prices rest
      end
  end.

(** The name [check_special_cases] compares against. *)
Definition comparison_name (thing : string) : string :=
  Str.strip (Str.lower thing).

(** The rule table of the specification: match rules with their rates, in
    order. *)
Definition rate_rules : list ((string -> bool) * Qc) :=
  [ (Str.contains "flour", Q2Qc 3.33);
    (String.eqb "butter", Q2Qc 2.0);
    (Str.contains "brown sugar", Q2Qc 2.25);
    (Str.contains "sugar", Q2Qc 2.0);
    (Str.contains "cocoa", Q2Qc 3.55) ].

(** [lookup_rate] of the specification: the rate of the first rule that
    matches the normalised name, 2.0 when none does. *)
Fixpoint first_match (rules : list ((string -> bool) * Qc)) (name : string)
  : Qc :=
  match rules with
  | [] => Q2Qc 2.0
  | (rule, rate) :: rest => if rule name then rate else first_match rest name
  end.

Definition lookup_rate (thing : string) : Qc :=
  first_match rate_rules (comparison_name thing).

(** [items] without its [n]-th element. *)
Definition drop_nth {A : Type} (n : nat) (items : list A) : list A :=
  firstn n items ++ skipn (S n) items.

(** ** Sample purchases and ingredients *)

Module Sample.

(** Five pounds of flour for $2.19. *)
Definition flour_cost : Cost.t := Cost.mk (Q2Qc 2.19) (Q2Qc 5) "pounds".

(** Three cups of flour from that bag. *)
Definition flour : Ingredient.t :=
  Ingredient.set_cost (Ingredient.new (Q2Qc 3) "cups" "flour") flour_cost.

(** One pound of flour from that bag. *)
Definition flour_by_weight : Ingredient.t :=
  Ingredient.set_cost (Ingredient.new (Q2Qc 1) "pounds" "flour") flour_cost.

(** Eight ounces of brown sugar for $4.50. *)
Definition sugar_cost : Cost.t := Cost.mk (Q2Qc 4.5) (Q2Qc 8) "ounces".

(** Three bananas, bought at $1.50 for two pounds. *)
Definition banana_cost : Cost.t := Cost.mk (Q2Qc 1.5) (Q2Qc 2) "pounds".
Definition bananas : Ingredient.t :=
  Ingredient.set_cost (Ingredient.new (Q2Qc 3) "count" "bananas") banana_cost.

(** Two cups of water, which cost nothing. *)
Definition water_cost : Cost.t := Cost.mk (Q2Qc 0) (Q2Qc 1) "liters".
Definition water : Ingredient.t :=
  Ingredient.set_cost (Ingredient.new (Q2Qc 2) "cups" "water") water_cost.

(** A purchase recorded with quantity zero. *)
Definition empty_cost : Cost.t := Cost.mk (Q2Qc 2.19) (Q2Qc 0) "pounds".
Definition nothing : Ingredient.t :=
  Ingredient.set_cost (Ingredient.new (Q2Qc 1) "pounds" "flour") empty_cost.

End Sample.

(** ** More purchases and ingredients *)

Module Pantry.

(** Two eggs from a dozen bought for $3.00, both measured in "each", a
    name the registry does not have. *)
Definition egg_cost : Cost.t := Cost.mk (Q2Qc 3) (Q2Qc 12) "each".
Definition eggs : Ingredient.t :=
  Ingredient.set_cost (Ingredient.new (Q2Qc 2) "each" "eggs") egg_cost.

(** A pinch of salt that was never given a cost. *)
Definition salt : Ingredient.t := Ingredient.new (Q2Qc 1) "teaspoons" "salt".

(** Two tablespoons of cocoa from an eight-ounce tin bought for $4.00. *)
Definition cocoa_cost : Cost.t := Cost.mk (Q2Qc 4) (Q2Qc 8) "ounces".
Definition cocoa : Ingredient.t :=
  Ingredient.set_cost (Ingredient.new (Q2Qc 2) "tablespoons" "cocoa") cocoa_cost.

(** The same tin, recorded as half a pound. *)
Definition cocoa_cost_in_pounds : Cost.t := Cost.mk (Q2Qc 4) (Q2Qc 0.5) "pounds".

(** A metre of liquorice lace from a pound bought for $5.00. *)
Definition lace_cost : Cost.t := Cost.mk (Q2Qc 5) (Q2Qc 1) "pounds".
Definition lace : Ingredient.t :=
  Ingredient.set_cost (Ingredient.new (Q2Qc 1) "meters" "liquorice lace") lace_cost.

(** Eight ounces of butter from a pound bought for $4.00. *)
Definition butter_cost : Cost.t := Cost.mk (Q2Qc 4) (Q2Qc 1) "pounds".
Definition butter : Ingredient.t :=
  Ingredient.set_cost (Ingredient.new (Q2Qc 8) "ounces" "butter") butter_cost.

End Pantry.

(** ** The interview: [read_recipe] and [add_costs]

    Standard input is the list of the lines still to be typed: [input()]
    takes the first one and raises [EOFError] when none is left.  What the
    interview prints (its prompts) is not modelled: it does not bear on what
    is read, stored or raised.  The builtins [float] and [Fraction], and
    the string methods [lower] and [strip] of the test for "done", are
    parameters of the functions that call them. *)

Module Interview.

(** What the interview can raise. *)
Inductive Error : Type :=
| EOFError
| ValueError (text : string)
| ZeroDivisionError
| IndexError
| SystemExit (status : Z).

Inductive attempt (A : Type) : Type :=
| Done (a : A)
| Failed (e : Error).
Arguments Done {A} a.
Arguments Failed {A} e.

(** [str.split()]: the maximal runs of characters that are not white space. *)
Fixpoint split_from (word s : string) : list string :=
  match s with
  | EmptyString => if (word =? "")%string then [] else [word]
  | String c r =>
      if Str.is_space c then
        if (word =? "")%string then split_from "" r
        else word :: split_from "" r
      else split_from (word ++ String c "") r
  end.

Definition split (s : string) : list string := split_from "" s.

Section Builtins.

Variable lower : string -> string.
Variable strip : string -> string.
Variable float : string -> attempt Qc.
Variable Fraction : string -> attempt Qc.

(** [sum(Fraction(s) for s in words)], from the left. *)
Fixpoint sum_fractions (words : list string) (total : Qc) : attempt Qc :=
  match words with
  | [] => Done total
  | s :: rest =>
      match Fraction s with
      | Done x => sum_fractions rest (total + x)
      | Failed e => Failed e
      end
  end.

(** The quantity typed as [qty], as both [read_recipe] and [add_costs]
    work it out: the sum of its fractions when it has a slash, [float(qty)]
    otherwise. *)
Definition read_quantity (qty : string) : attempt Qc :=
  if Str.contains "/" qty then sum_fractions (split qty) 0
  else float qty.

(** The [while] loop of [read_recipe]: the ingredients typed until "done",
    and the lines left after it. *)
Fixpoint read_ingredients (stdin : list string)
  : attempt (list Ingredient.t * list string) :=
  match stdin with
  | [] => Failed EOFError
  | item :: stdin =>
      if (strip (lower item) =? "done")%string then Done ([], stdin)
      else
        match stdin with
        | [] => Failed EOFError
        | qty :: stdin =>
            match read_quantity qty with
            | Failed e => Failed e
            | Done qty =>
                match stdin with
                | [] => Failed EOFError
                | measure :: stdin =>
                    let ingredient := Ingredient.new qty measure item in
                    match read_ingredients stdin with
                    | Failed e => Failed e
                    | Done (rest, stdin) => Done (ingredient :: rest, stdin)
                    end
                end
            end
        end
  end.

(** [read_recipe()] *)
Definition read_recipe (stdin : list string)
  : attempt (Recipe.t * list string) :=
  match stdin with
  | [] => Failed EOFError
  | good_to_go :: stdin =>
      match good_to_go with
      | EmptyString => Failed IndexError
      | String c _ =>
          if negb ((c =? "Y")%char || (c =? "y")%char)
          then Failed (SystemExit 0)
          else
            match stdin with
            | [] => Failed EOFError
            | name :: stdin =>
                match read_ingredients stdin with
                | Failed e => Failed e
                | Done (ingredients, stdin) =>
                    Done (Recipe.mk name ingredients, stdin)
                end
            end
      end
  end.

(** The loop of [add_costs]. *)
Fixpoint add_costs_items (items : list Ingredient.t) (stdin : list string)
  : attempt (list Ingredient.t * list string) :=
  match items with
  | [] => Done ([], stdin)
  | item :: rest =>
      match stdin with
      | [] => Failed EOFError
      | price :: stdin =>
          match float price with
          | Failed e => Failed e
          | Done price =>
              match stdin with
              | [] => Failed EOFError
              | qty :: stdin =>
                  match read_quantity qty with
                  | Failed e => Failed e
                  | Done qty =>
                      match stdin with
                      | [] => Failed EOFError
                      | measure :: stdin =>
                          let item :=
                            Ingredient.set_cost item (Cost.mk price qty measure) in
                          match add_costs_items rest stdin with
                          | Failed e => Failed e
                          | Done (rest, stdin) => Done (item :: rest, stdin)
                          end
                      end
                  end
              end
          end
      end
  end.

(** [add_costs(recipe)] *)
Definition add_costs (recipe : Recipe.t) (stdin : list string)
  : attempt (Recipe.t * list string) :=
  match add_costs_items (Recipe.ingredients recipe) stdin with
  | Failed e => Failed e
  | Done (ingredients, stdin) =>
      Done (Recipe.mk (Recipe.name recipe) ingredients, stdin)
  end.

End Builtins.

(** The lines typed for a list of ingredients, each with the text of its
    quantity. *)
Definition typed_ingredients (entries : list (Ingredient.t * string))
  : list string :=
  flat_map
    (fun entry =>
       [Ingredient.thing (fst entry); snd entry; Ingredient.measure (fst entry)])
    entries.

(** The lines typed for a list of costs, each with the texts of its money
    and of its quantity. *)
Definition typed_costs (entries : list (Cost.t * (string * string)))
  : list string :=
  flat_map
    (fun entry =>
       [fst (snd entry); snd (snd entry); Cost.measure (fst entry)])
    entries.

(** Plain decimal numerals, the part of what [float] and [Fraction] accept
    that the examples type: digits with at most one point, and for
    [Fraction] two runs of digits around a slash. *)
Definition digit (c : ascii) : option N :=
  let n := N_of_ascii c in
  if (48 <=? n)%N && (n <=? 57)%N then Some (n - 48)%N else None.

Fixpoint digits (s : string) (acc : N) : option N :=
  match s with
  | EmptyString => Some acc
  | String c r =>
      match digit c with
      | Some d => digits r (10 * acc + d)%N
      | None => None
      end
  end.

Fixpoint cut (sep : ascii) (s : string) : string * option string :=
  match s with
  | EmptyString => (EmptyString, None)
  | String c r =>
      if (c =? sep)%char then (EmptyString, Some r)
      else let (before, after) := cut sep r in (String c before, after)
  end.

Definition decimal_float (s : string) : attempt Qc :=
  let (whole, point) := cut "." s in
  let frac := match point with Some f => f | None => EmptyString end in
  match digits whole 0, digits frac 0 with
  | Some w, Some f =>
      if ((whole =? "") && (frac =? ""))%string then Failed (ValueError s)
      else
        let scale := (10 ^ Z.of_nat (String.length frac))%Z in
        Done (Q2Qc ((Z.of_N w * scale + Z.of_N f) # Z.to_pos scale))
  | _, _ => Failed (ValueError s)
  end.

Definition decimal_Fraction (s : string) : attempt Qc :=
  match cut "/" s with
  | (_, None) => decimal_float s
  | (num, Some den) =>
      match digits num 0, digits den 0 with
      | Some n, Some d =>
          if ((num =? "") || (den =? ""))%string then Failed (ValueError s)
          else if (d =? 0)%N then Failed ZeroDivisionError
          else Done (Q2Qc (Z.of_N n # Z.to_pos (Z.of_N d)))
      | _, _ => Failed (ValueError s)
      end
  end.

End Interview.

(** ** The program *)

(** How a run of the program ends: with the report, in the interview, or
    in the calculation (after what it had printed). *)
Inductive Ending : Type :=
| Reported (out : list Line)
| Interrupted (e : Interview.Error)
| Crashed (out : list Line) (e : Exn).

(** The [__main__] block; [out] is what the calculation and the report
    print. *)
Definition main (ureg : Pint.UnitRegistry) (lower strip : string -> string)
  (float Fraction : string -> Interview.attempt Qc) (stdin : list string)
  : Ending :=
  match Interview.read_recipe lower strip float Fraction stdin with
  | Interview.Failed e => Interrupted e
  | Interview.Done (recipe, stdin) =>
      match Interview.add_costs float Fraction recipe stdin with
      | Interview.Failed e => Interrupted e
      | Interview.Done (recipe, _) =>
          let run := calculate_recipe_prices ureg recipe in
          match raised run with
          | Some e => Crashed (stdout run) e
          | None =>
              Reported
                (stdout run
                 ++ print_recipe_costs
                      (Recipe.mk (Recipe.name recipe) (memory run)))
          end
      end
  end.

(** ** The arithmetic path on doubles

    The same turn of the loop with the numbers as the program has them:
    IEEE binary64 values, every operation rounded to nearest.  The guard
    of [check_special_cases] does not compute and is shared with the exact
    embedding ([special_case]); the sizes of the units and the rates are
    the doubles nearest to the decimals of the table and of the source. *)

Module Binary64.

Definition double : Set := PrimFloat.float.

Definition of_Z (z : Z) : double := PrimFloat.of_uint63 (Uint63.of_Z z).

(** The double nearest to a rational whose numerator and denominator are
    below 2^53: what Python reads a decimal literal as. *)
Definition nearest (q : Qc) : double :=
  let n := Qnum q in
  let d := Z.pos (Qden q) in
  if (n <? 0)%Z then PrimFloat.opp (PrimFloat.div (of_Z (- n)) (of_Z d))
  else PrimFloat.div (of_Z n) (of_Z d).

Module Cost.
Record t : Type := mk
  { money : double; quantity : double; measure : string }.
End Cost.

Module Ingredient.
Record t : Type := mk
  { quantity : double; measure : string; thing : string;
    cost : option Cost.t; price : option double }.

Definition set_cost (item : t) (c : Cost.t) : t :=
  mk (quantity item) (measure item) (thing item) (Some c) (price item).

Definition set_price (item : t) (p : double) : t :=
  mk (quantity item) (measure item) (thing item) (cost item) (Some p).
End Ingredient.

Record Quantity : Type := mkQuantity
  { magnitude : double; units : string; unit_of : Pint.Unit }.

(** [x * ureg[name]] *)
Definition quantity (ureg : Pint.UnitRegistry) (x : double) (name : string)
  : result Quantity :=
  u <- Pint.getitem ureg name ;;
  Ok (mkQuantity x name u).

(** [q.to(target)] *)
Definition to (ureg : Pint.UnitRegistry) (q : Quantity) (target : string)
  : result Quantity :=
  u <- Pint.getitem ureg target ;;
  if Pint.dim_eqb (Pint.dimensionality (unit_of q)) (Pint.dimensionality u)
  then
    Ok (mkQuantity
          (PrimFloat.mul (magnitude q)
             (PrimFloat.div (nearest (Pint.factor (unit_of q)))
                (nearest (Pint.factor u))))
          target u)
  else Raise (DimensionalityError (units q) target).

(** [convert_mass_to_volume(cost, rate)] *)
Definition convert_mass_to_volume (ureg : Pint.UnitRegistry) (cost : Cost.t)
  (rate : double) : result Cost.t :=
  orig <- quantity ureg (Cost.quantity cost) (Cost.measure cost) ;;
  orig_in_lbs <- to ureg orig "pounds" ;;
  let qty_in_pounds := magnitude orig_in_lbs in
  let cups := PrimFloat.mul qty_in_pounds rate in
  Ok (Cost.mk (Cost.money cost) cups "cups").

(** [check_special_cases(item)] *)
Definition check_special_cases (ureg : Pint.UnitRegistry) (item : Ingredient.t)
  : result Ingredient.t :=
  match Ingredient.cost item with
  | None => Raise AttributeError
  | Some cost =>
      special <- special_case ureg (Cost.measure cost) (Ingredient.measure item) ;;
      if special : bool then
        cost' <- convert_mass_to_volume ureg cost
                   (nearest (conversion_rate (Ingredient.thing item))) ;;
        Ok (Ingredient.set_cost item cost')
      else Ok item
  end.

(** The body of the loop of [calculate_recipe_prices]; dividing by a zero
    of either sign raises. *)
Definition price_item (ureg : Pint.UnitRegistry) (item : Ingredient.t)
  : Ingredient.t * Outcome :=
  match check_special_cases ureg item with
  | Raise e => (item, Raised e)
  | Ok item =>
      match Ingredient.cost item with
      | None => (item, Raised AttributeError)
      | Some cost =>
          match quantity ureg (Cost.quantity cost) (Cost.measure cost) with
          | Raise e => (item, Raised e)
          | Ok bulk =>
              match to ureg bulk (Ingredient.measure item) with
              | Raise (DimensionalityError src dst) =>
                  (item, Skipped (DimensionalityError src dst))
              | Raise e => (item, Raised e)
              | Ok smaller =>
                  if PrimFloat.eqb (magnitude smaller) PrimFloat.zero
                  then (item, Raised ZeroDivisionError)
                  else
                    let used_fraction :=
                      PrimFloat.div (Ingredient.quantity item) (magnitude smaller) in
                    (Ingredient.set_price item
                       (PrimFloat.mul used_fraction (Cost.money cost)),
                     Priced)
              end
          end
      end
  end.



End Binary64.

(** ** Tactics *)

(** Closed goals over concrete rationals: evaluate, then compare the
    rationals by their reduced fractions. *)
Ltac qc_step :=
  first [ reflexivity
        | apply Qc_is_canon; reflexivity
        | progress f_equal ].

Ltac qc_eval := vm_compute; repeat qc_step.

(** Two concrete rationals differ. *)
Ltac qc_neq :=
  let H := fresh in
  intro H; apply (f_equal this) in H; vm_compute in H; discriminate H.

(** ** Facts about the rationals and the registry *)

Lemma Qc_eq_bool_refl (x : Qc) : Qc_eq_bool x x = true.
Proof.
  unfold Qc_eq_bool. destruct (Qc_eq_dec x x); [reflexivity | contradiction].
Qed.

Lemma Qc_eq_bool_neq (x y : Qc) : x <> y -> Qc_eq_bool x y = false.
Proof.
  intro H. unfold Qc_eq_bool. destruct (Qc_eq_dec x y); [contradiction | reflexivity].
Qed.

Lemma Qcmult_pos (x y : Qc) : 0 < x -> 0 < y -> 0 < x * y.
Proof.
  intros Hx Hy. rewrite <- (Qcmult_0_l y). now apply Qcmult_lt_compat_r.
Qed.

Lemma Qcinv_pos (x : Qc) : 0 < x -> 0 < / x.
Proof.
  intro Hx. unfold Qclt in *. simpl.
  rewrite Qred_correct. now apply Qinv_lt_0_compat.
Qed.

Lemma Qcdiv_pos (x y : Qc) : 0 < x -> 0 < y -> 0 < x / y.
Proof.
  intros Hx Hy. unfold Qcdiv. apply Qcmult_pos; [assumption | now apply Qcinv_pos].
Qed.

Lemma dim_eqb_eq (a b : Pint.Dimensionality) :
  Pint.dim_eqb a b = true <-> a = b.
Proof.
  destruct a as [l1 m1 t1], b as [l2 m2 t2]. unfold Pint.dim_eqb. simpl.
  rewrite !andb_true_iff, !Z.eqb_eq. split.
  - intros [[-> ->] ->]. reflexivity.
  - intro H. injection H as -> -> ->. auto.
Qed.

Lemma dim_eqb_refl (a : Pint.Dimensionality) : Pint.dim_eqb a a = true.
Proof. now apply dim_eqb_eq. Qed.

Lemma dim_eqb_sym (a b : Pint.Dimensionality) :
  Pint.dim_eqb a b = Pint.dim_eqb b a.
Proof.
  destruct (Pint.dim_eqb a b) eqn:Hab, (Pint.dim_eqb b a) eqn:Hba; try reflexivity.
  - apply dim_eqb_eq in Hab. subst. now rewrite dim_eqb_refl in Hba.
  - apply dim_eqb_eq in Hba. subst. now rewrite dim_eqb_refl in Hab.
Qed.

Lemma has_dim_lookup ureg name d :
  Pint.has_dim ureg name d = true ->
  exists u, Pint.lookup ureg name = Some u /\ Pint.dimensionality u = d.
Proof.
  unfold Pint.has_dim. destruct (Pint.lookup ureg name) as [u|]; [|discriminate].
  intro H. exists u. split; [reflexivity | now apply dim_eqb_eq].
Qed.

Lemma positive_size_lookup ureg name u :
  forallb (fun e => Pint.positive_size (snd e)) ureg = true ->
  Pint.lookup ureg name = Some u -> 0 < Pint.factor u.
Proof.
  induction ureg as [|[n v] rest IH]; simpl; [discriminate|].
  rewrite andb_true_iff. intros [Hv Hrest].
  destruct (n =? name)%string.
  - intro H. injection H as <-. unfold Pint.positive_size in Hv.
    destruct (Pint.factor v ?= 0) eqn:E; try discriminate.
    apply Qcgt_alt in E. exact E.
  - now apply IH.
Qed.

Section RegistryFacts.

Variable ureg : Pint.UnitRegistry.
Hypothesis ureg_ok : Pint.registry_ok ureg = true.

Lemma lbs_defined :
  exists u, Pint.lookup ureg "lbs" = Some u /\ Pint.dimensionality u = Pint.mass.
Proof.
  unfold Pint.registry_ok in ureg_ok. rewrite !andb_true_iff in ureg_ok.
  now apply has_dim_lookup.
Qed.

Lemma pounds_defined :
  exists u, Pint.lookup ureg "pounds" = Some u /\ Pint.dimensionality u = Pint.mass.
Proof.
  unfold Pint.registry_ok in ureg_ok. rewrite !andb_true_iff in ureg_ok.
  now apply has_dim_lookup.
Qed.

Lemma cups_defined :
  exists u, Pint.lookup ureg "cups" = Some u /\ Pint.dimensionality u = Pint.volume.
Proof.
  unfold Pint.registry_ok in ureg_ok. rewrite !andb_true_iff in ureg_ok.
  now apply has_dim_lookup.
Qed.

Lemma factor_positive name u :
  Pint.lookup ureg name = Some u -> 0 < Pint.factor u.
Proof.
  unfold Pint.registry_ok in ureg_ok. rewrite !andb_true_iff in ureg_ok.
  now apply positive_size_lookup.
Qed.

Lemma is_mass_lookup name u :
  Pint.lookup ureg name = Some u ->
  is_mass ureg name = Ok (Pint.dim_eqb (Pint.dimensionality u) Pint.mass).
Proof.
  intro Hu. destruct lbs_defined as (l & Hl & Hd).
  unfold is_mass, Pint.getitem. rewrite Hu, Hl. simpl. now rewrite Hd.
Qed.

Lemma special_case_lookup cm im cu iu :
  Pint.lookup ureg cm = Some cu ->
  Pint.lookup ureg im = Some iu ->
  special_case ureg cm im =
    Ok (Pint.dim_eqb (Pint.dimensionality cu) Pint.mass
        && negb (Pint.dim_eqb (Pint.dimensionality iu) Pint.mass)).
Proof.
  intros Hc Hi. unfold special_case.
  rewrite (is_mass_lookup _ _ Hc). simpl.
  destruct (Pint.dim_eqb (Pint.dimensionality cu) Pint.mass); [|reflexivity].
  rewrite (is_mass_lookup _ _ Hi). reflexivity.
Qed.

Lemma special_case_not_mass cm im cu :
  Pint.lookup ureg cm = Some cu ->
  Pint.dim_eqb (Pint.dimensionality cu) Pint.mass = false ->
  special_case ureg cm im = Ok false.
Proof.
  intros Hc Hd. unfold special_case.
  rewrite (is_mass_lookup _ _ Hc). simpl. now rewrite Hd.
Qed.

End RegistryFacts.

(** ** The loop body in terms of the Conversion Engine *)

Lemma price_item_unfold ureg item :
  price_item ureg item =
    match check_special_cases ureg item with
    | Raise e => (item, Raised e)
    | Ok item' =>
        match Ingredient.cost item' with
        | None => (item', Raised AttributeError)
        | Some cost =>
            match convert ureg (Cost.quantity cost) (Cost.measure cost)
                    (Ingredient.measure item') with
            | Raise (DimensionalityError src dst) =>
                (item', Skipped (DimensionalityError src dst))
            | Raise e => (item', Raised e)
            | Ok b =>
                if Qc_eq_bool b 0 then (item', Raised ZeroDivisionError)
                else
                  (Ingredient.set_price item'
                     (Ingredient.quantity item' / b * Cost.money cost), Priced)
            end
        end
    end.
Proof.
  unfold price_item, convert.
  destruct (check_special_cases ureg item) as [item'|e]; [|reflexivity].
  destruct (Ingredient.cost item') as [cost|]; [|reflexivity].
  unfold Pint.quantity, Pint.getitem.
  destruct (Pint.lookup ureg (Cost.measure cost)) as [u|]; simpl; [|reflexivity].
  set (bulk := Pint.mkQuantity _ _ _).
  destruct (Pint.to ureg bulk (Ingredient.measure item')) as [smaller|e]; simpl;
    [reflexivity | destruct e; reflexivity].
Qed.

Lemma convert_lookup ureg x src dst su du :
  Pint.lookup ureg src = Some su ->
  Pint.lookup ureg dst = Some du ->
  convert ureg x src dst =
    if Pint.dim_eqb (Pint.dimensionality su) (Pint.dimensionality du)
    then Ok (x * (Pint.factor su / Pint.factor du))
    else Raise (DimensionalityError src dst).
Proof.
  intros Hs Hd. unfold convert, Pint.quantity, Pint.to, Pint.getitem.
  rewrite Hs. simpl. rewrite Hd. simpl.
  destruct (Pint.dim_eqb _ _); reflexivity.
Qed.

Lemma convert_ok_inv ureg x src dst b :
  convert ureg x src dst = Ok b ->
  exists su du,
    Pint.lookup ureg src = Some su /\ Pint.lookup ureg dst = Some du /\
    Pint.dimensionality su = Pint.dimensionality du /\
    b = x * (Pint.factor su / Pint.factor du).
Proof.
  unfold convert, Pint.quantity, Pint.to, Pint.getitem.
  destruct (Pint.lookup ureg src) as [su|] eqn:Hs; simpl; [|discriminate].
  destruct (Pint.lookup ureg dst) as [du|] eqn:Hd; simpl; [|discriminate].
  destruct (Pint.dim_eqb _ _) eqn:E; simpl; [|discriminate].
  intro H. injection H as <-. exists su, du.
  repeat split. now apply dim_eqb_eq.
Qed.

Lemma convert_mass_to_volume_convert ureg cost rate :
  convert_mass_to_volume ureg cost rate =
    lbs <- convert ureg (Cost.quantity cost) (Cost.measure cost) "pounds" ;;
    Ok (Cost.mk (Cost.money cost) (lbs * rate) "cups").
Proof.
  unfold convert_mass_to_volume, convert.
  destruct (Pint.quantity ureg _ _) as [orig|e]; simpl; [|reflexivity].
  destruct (Pint.to ureg orig "pounds") as [q|e]; reflexivity.
Qed.

Lemma conversion_rate_positive thing : 0 < conversion_rate thing.
Proof.
  unfold conversion_rate.
  repeat match goal with
         | |- context [if ?c then _ else _] => destruct c
         end; reflexivity.
Qed.

Section CalculatorFacts.

Variable ureg : Pint.UnitRegistry.
Hypothesis ureg_ok : Pint.registry_ok ureg = true.

Lemma convert_positive x src dst b :
  0 < x -> convert ureg x src dst = Ok b -> 0 < b.
Proof.
  intros Hx H. apply convert_ok_inv in H.
  destruct H as (su & du & Hs & Hd & _ & ->).
  apply Qcmult_pos; [assumption|].
  apply Qcdiv_pos; eapply factor_positive; eassumption.
Qed.

Lemma is_mass_cups : is_mass ureg "cups" = Ok false.
Proof.
  destruct (cups_defined ureg ureg_ok) as (u & Hu & Hd).
  rewrite (is_mass_lookup ureg ureg_ok _ _ Hu), Hd. reflexivity.
Qed.

Lemma convert_mass_to_volume_mass cost rate u :
  Pint.lookup ureg (Cost.measure cost) = Some u ->
  Pint.dimensionality u = Pint.mass ->
  exists p,
    Pint.lookup ureg "pounds" = Some p /\
    convert ureg (Cost.quantity cost) (Cost.measure cost) "pounds" =
      Ok (Cost.quantity cost * (Pint.factor u / Pint.factor p)) /\
    convert_mass_to_volume ureg cost rate =
      Ok (Cost.mk (Cost.money cost)
            (Cost.quantity cost * (Pint.factor u / Pint.factor p) * rate) "cups").
Proof.
  intros Hu Hd. destruct (pounds_defined ureg ureg_ok) as (p & Hp & Hpd).
  exists p. split; [assumption|].
  assert (Hc : convert ureg (Cost.quantity cost) (Cost.measure cost) "pounds" =
               Ok (Cost.quantity cost * (Pint.factor u / Pint.factor p))).
  { rewrite (convert_lookup _ _ _ _ _ _ Hu Hp), Hd, Hpd. reflexivity. }
  split; [assumption|].
  rewrite convert_mass_to_volume_convert, Hc. reflexivity.
Qed.

Lemma check_special_cases_positive item item' c c' :
  Ingredient.cost item = Some c -> 0 < Cost.quantity c ->
  check_special_cases ureg item = Ok item' ->
  Ingredient.cost item' = Some c' -> 0 < Cost.quantity c'.
Proof.
  intros Hc Hpos. unfold check_special_cases. rewrite Hc.
  destruct (special_case ureg _ _) as [[|]|e]; simpl; try discriminate.
  - rewrite convert_mass_to_volume_convert.
    destruct (convert ureg _ _ "pounds") as [lbs|e] eqn:E; simpl; [|discriminate].
    intro H. injection H as <-. simpl. intro H. injection H as <-. simpl.
    apply Qcmult_pos; [|apply conversion_rate_positive].
    eapply convert_positive; eassumption.
  - intro H. injection H as <-. rewrite Hc. intro H. injection H as <-.
    assumption.
Qed.

End CalculatorFacts.

(** ** The density heuristic: [convert_mass_to_volume] *)

(** Claim C6.  Whenever the density heuristic rewrites a cost -- whatever
    mass unit it starts in and whatever the rate -- the rewrite succeeds, the
    new measure is ["cups"], which is a volume unit and not a mass unit, the
    new quantity is the old quantity expressed in pounds times the rate, and
    the money is untouched. *)
Theorem convert_mass_to_volume_rewrites ureg cost rate u :
  Pint.registry_ok ureg = true ->
  Pint.lookup ureg (Cost.measure cost) = Some u ->
  Pint.dimensionality u = Pint.mass ->
  exists lbs cost',
    convert ureg (Cost.quantity cost) (Cost.measure cost) "pounds" = Ok lbs /\
    convert_mass_to_volume ureg cost rate = Ok cost' /\
    Cost.measure cost' = "cups" /\
    Cost.quantity cost' = lbs * rate /\
    Cost.money cost' = Cost.money cost /\
    Pint.has_dim ureg (Cost.measure cost') Pint.volume = true /\
    is_mass ureg (Cost.measure cost') = Ok false.
Proof.
  intros Hok Hu Hd.
  destruct (convert_mass_to_volume_mass ureg Hok cost rate u Hu Hd)
    as (p & Hp & Hlbs & Hrew).
  eexists. eexists. split; [exact Hlbs|]. split; [exact Hrew|]. simpl.
  repeat split.
  - unfold Pint.registry_ok in Hok. rewrite !andb_true_iff in Hok. apply Hok.
  - now apply is_mass_cups.
Qed.

Lemma convert_mass_to_volume_rewrites_witness :
  exists lbs cost',
    convert Pint.default_registry (Q2Qc 8) "ounces" "pounds" = Ok lbs /\
    convert_mass_to_volume Pint.default_registry Sample.sugar_cost (Q2Qc 2.25)
      = Ok cost' /\
    Cost.measure cost' = "cups" /\
    Cost.quantity cost' = lbs * Q2Qc 2.25 /\
    Cost.money cost' = Q2Qc 4.5 /\
    Pint.has_dim Pint.default_registry (Cost.measure cost') Pint.volume = true /\
    is_mass Pint.default_registry (Cost.measure cost') = Ok false.
Proof.
  apply (convert_mass_to_volume_rewrites Pint.default_registry
           Sample.sugar_cost (Q2Qc 2.25) Pint.ounce); reflexivity.
Defined.

(** A cost in ounces: half a pound at 2.25 cups per pound is 1.125 cups. *)
Example convert_mass_to_volume_ounces :
  convert_mass_to_volume Pint.default_registry Sample.sugar_cost (Q2Qc 2.25)
  = Ok (Cost.mk (Q2Qc 4.5) (Q2Qc 1.125) "cups").
Proof. qc_eval. Qed.

(** ** The density heuristic: [check_special_cases] *)

Lemma check_special_cases_unchanged ureg item c :
  Ingredient.cost item = Some c ->
  special_case ureg (Cost.measure c) (Ingredient.measure item) = Ok false ->
  check_special_cases ureg item = Ok item.
Proof.
  intros Hc Hs. unfold check_special_cases. now rewrite Hc, Hs.
Qed.

Lemma check_special_cases_keeps ureg item item' :
  check_special_cases ureg item = Ok item' ->
  Ingredient.thing item' = Ingredient.thing item /\
  Ingredient.quantity item' = Ingredient.quantity item /\
  Ingredient.measure item' = Ingredient.measure item /\
  option_map Cost.money (Ingredient.cost item')
  = option_map Cost.money (Ingredient.cost item).
Proof.
  unfold check_special_cases.
  destruct (Ingredient.cost item) as [c|] eqn:Hc; [|discriminate].
  destruct (special_case ureg _ _) as [[|]|e]; simpl; try discriminate.
  - rewrite convert_mass_to_volume_convert.
    destruct (convert ureg _ _ "pounds") as [lbs|e]; simpl; [|discriminate].
    intro H. injection H as <-. simpl. auto.
  - intro H. injection H as <-. rewrite Hc. auto.
Qed.

Lemma set_cost_same item c :
  Ingredient.cost item = Some c -> Ingredient.set_cost item c = item.
Proof. destruct item. simpl. now intros ->. Qed.

Lemma check_special_cases_stable ureg item item' :
  Pint.registry_ok ureg = true ->
  check_special_cases ureg item = Ok item' ->
  check_special_cases ureg item' = Ok item'.
Proof.
  intro Hok. unfold check_special_cases at 1.
  destruct (Ingredient.cost item) as [c|] eqn:Hc; [|discriminate].
  destruct (special_case ureg (Cost.measure c) (Ingredient.measure item))
    as [[|]|e] eqn:Hs; simpl; [| |discriminate].
  - rewrite convert_mass_to_volume_convert.
    destruct (convert ureg _ _ "pounds") as [lbs|e]; simpl; [|discriminate].
    intro H. injection H as <-.
    eapply check_special_cases_unchanged; [reflexivity|]. simpl.
    unfold special_case. now rewrite (is_mass_cups ureg Hok).
  - intro H. injection H as <-.
    eapply check_special_cases_unchanged; eassumption.
Qed.

(** Claim C9.  The density-heuristic pass is idempotent: running
    [check_special_cases] on its own result changes nothing more, because a
    rewritten cost is in cups, which is not a mass unit. *)
Theorem check_special_cases_idempotent ureg item :
  Pint.registry_ok ureg = true ->
  (item' <- check_special_cases ureg item ;; check_special_cases ureg item')
  = check_special_cases ureg item.
Proof.
  intro Hok.
  destruct (check_special_cases ureg item) as [item'|e] eqn:H; [|reflexivity].
  simpl. now apply check_special_cases_stable with (item := item).
Qed.

Lemma check_special_cases_idempotent_witness :
  (item' <- check_special_cases Pint.default_registry Sample.flour ;;
   check_special_cases Pint.default_registry item')
  = Ok (Ingredient.set_cost Sample.flour
          (Cost.mk (Q2Qc 2.19) (Q2Qc 16.65) "cups")).
Proof.
  rewrite (check_special_cases_idempotent Pint.default_registry Sample.flour
             eq_refl).
  qc_eval.
Defined.

(** Claim C3, as the code has it.  The density heuristic is applied exactly
    when the cost's unit is a mass unit and the ingredient's unit is not a
    mass unit -- a volume unit or a unit of any other dimensionality; in
    every other case the ingredient, and so its cost, is returned as it
    was. *)
Theorem check_special_cases_trigger ureg item c cu iu :
  Pint.registry_ok ureg = true ->
  Ingredient.cost item = Some c ->
  Pint.lookup ureg (Cost.measure c) = Some cu ->
  Pint.lookup ureg (Ingredient.measure item) = Some iu ->
  (Pint.dimensionality cu = Pint.mass /\ Pint.dimensionality iu <> Pint.mass ->
   exists c',
     convert_mass_to_volume ureg c (conversion_rate (Ingredient.thing item))
       = Ok c' /\
     check_special_cases ureg item = Ok (Ingredient.set_cost item c') /\
     c' <> c) /\
  (~ (Pint.dimensionality cu = Pint.mass /\ Pint.dimensionality iu <> Pint.mass) ->
   check_special_cases ureg item = Ok item).
Proof.
  intros Hok Hc Hcu Hiu.
  pose proof (special_case_lookup ureg Hok _ _ _ _ Hcu Hiu) as Hs.
  split.
  - intros [Hm Hn].
    destruct (convert_mass_to_volume_mass ureg Hok c
                (conversion_rate (Ingredient.thing item)) cu Hcu Hm)
      as (p & _ & _ & Hrew).
    eexists. split; [exact Hrew|]. split.
    + unfold check_special_cases. rewrite Hc, Hs, Hm, dim_eqb_refl. simpl.
      destruct (Pint.dim_eqb (Pint.dimensionality iu) Pint.mass) eqn:E.
      * apply dim_eqb_eq in E. contradiction.
      * simpl. now rewrite Hrew.
    + intro Heq. pose proof (is_mass_cups ureg Hok) as Hnot.
      pose proof (is_mass_lookup ureg Hok _ _ Hcu) as Hyes.
      rewrite <- Heq, Hm in Hyes. simpl in Hyes. rewrite Hyes in Hnot.
      discriminate.
  - intro Hn. apply check_special_cases_unchanged with (c := c); [assumption|].
    rewrite Hs. f_equal.
    destruct (Pint.dim_eqb (Pint.dimensionality cu) Pint.mass) eqn:Ec;
      [|reflexivity].
    destruct (Pint.dim_eqb (Pint.dimensionality iu) Pint.mass) eqn:Ei;
      [reflexivity|].
    exfalso. apply Hn. split; [now apply dim_eqb_eq|].
    intro H. apply dim_eqb_eq in H. congruence.
Qed.

Lemma check_special_cases_trigger_witness :
  exists c',
    convert_mass_to_volume Pint.default_registry Sample.flour_cost (Q2Qc 3.33)
      = Ok c' /\
    check_special_cases Pint.default_registry Sample.flour
      = Ok (Ingredient.set_cost Sample.flour c') /\
    c' <> Sample.flour_cost.
Proof.
  apply (proj1 (check_special_cases_trigger Pint.default_registry Sample.flour
                  Sample.flour_cost Pint.pound Pint.cup
                  eq_refl eq_refl eq_refl eq_refl)).
  split; [reflexivity | discriminate].
Defined.

(** Claim C3, as stated, fails: bananas bought by the pound and used by
    count are not a mass-against-volume pairing, and yet the heuristic
    rewrites their cost into cups. *)
Lemma check_special_cases_count_used :
  Pint.has_dim Pint.default_registry (Cost.measure Sample.banana_cost) Pint.mass
    = true /\
  Pint.has_dim Pint.default_registry (Ingredient.measure Sample.bananas)
    Pint.volume = false /\
  check_special_cases Pint.default_registry Sample.bananas
    = Ok (Ingredient.set_cost Sample.bananas
            (Cost.mk (Q2Qc 1.5) (Q2Qc 4) "cups")) /\
  Cost.mk (Q2Qc 1.5) (Q2Qc 4) "cups" <> Sample.banana_cost.
Proof.
  repeat split; first [reflexivity | discriminate | qc_eval].
Qed.

(** ** Apportionment *)



(** The same on an ingredient that the heuristic rewrites: three cups of
    flour against the 16.65 cups the five pounds have become. *)
Example price_item_apportions_by_the_cup :
  price_item Pint.default_registry Sample.flour
  = (Ingredient.set_price
       (Ingredient.set_cost Sample.flour
          (Cost.mk (Q2Qc 2.19) (Q2Qc 16.65) "cups"))
       (Q2Qc 3 / Q2Qc 16.65 * Q2Qc 2.19), Priced).
Proof. qc_eval. Qed.

(** Claim C1.  Three cups of flour from a five-pound bag bought for $2.19:
    the rate for flour is 3.33, the bag becomes 5 * 3.33 = 16.65 cups, the
    fraction used is 3 / 16.65, about 0.1802, and the price set is that
    fraction of 2.19, about 0.3945 dollars. *)
Theorem flour_by_the_cup :
  conversion_rate "flour" = Q2Qc 3.33 /\
  check_special_cases Pint.default_registry Sample.flour
  = Ok (Ingredient.set_cost Sample.flour
          (Cost.mk (Q2Qc 2.19) (Q2Qc 5 * Q2Qc 3.33) "cups")) /\
  Q2Qc 5 * Q2Qc 3.33 = Q2Qc 16.65 /\
  (let used_fraction := Q2Qc 3 / Q2Qc 16.65 in
   let price := used_fraction * Q2Qc 2.19 in
   calculate_recipe_prices Pint.default_registry
     (Recipe.mk "bread" [Sample.flour])
   = mkRun
       [Ingredient.mk (Q2Qc 3) "cups" "flour"
          (Some (Cost.mk (Q2Qc 2.19) (Q2Qc 16.65) "cups")) (Some price)]
       [] None /\
   Q2Qc 0.1801 < used_fraction /\ used_fraction < Q2Qc 0.1802 /\
   Q2Qc 0.3945 < price /\ price < Q2Qc 0.3946).
Proof.
  repeat split; qc_eval.
Qed.

(** ** What can be raised, and where *)

Ltac split_matches :=
  repeat match goal with
         | |- context [match ?x with _ => _ end] =>
             lazymatch x with
             | context [match _ with _ => _ end] => fail
             | _ => destruct x eqn:?; simpl
             end
         end.




Lemma calculate_items_raised ureg items e :
  raised (calculate_items ureg items) = Some e ->
  exists item, In item items /\ snd (price_item ureg item) = Raised e.
Proof.
  induction items as [|item rest IH]; simpl; [discriminate|].
  destruct (price_item ureg item) as [item' [|dm|e']] eqn:Hp; simpl.
  - intro H. destruct (IH H) as (x & Hin & Hx). exists x. auto.
  - intro H. destruct (IH H) as (x & Hin & Hx). exists x. auto.
  - intro H. injection H as ->. exists item. rewrite Hp. auto.
Qed.




(** A purchase of quantity zero: the division raises and the run ends there,
    before the ingredients that follow are priced. *)
Example zero_quantity_ends_the_run :
  calculate_items Pint.default_registry [Sample.nothing; Sample.flour_by_weight]
  = mkRun [Sample.nothing; Sample.flour_by_weight] [] (Some ZeroDivisionError).
Proof. qc_eval. Qed.

(** ** The rate rules *)

Lemma conversion_rate_first_match thing :
  conversion_rate thing = lookup_rate thing.
Proof. reflexivity. Qed.

(** Claim C7, as the code has it.  The rules are tried in order and the
    first match wins: flour, butter, brown sugar, sugar, cocoa, default.  So a
    name that contains "brown sugar" and does not contain "flour" gets 2.25
    and not the 2.0 of the "sugar" rule. *)
Theorem brown_sugar_before_sugar thing :
  Str.contains "brown sugar" (comparison_name thing) = true ->
  Str.contains "flour" (comparison_name thing) = false ->
  conversion_rate thing = first_match rate_rules (comparison_name thing) /\
  conversion_rate thing = Q2Qc 2.25 /\
  conversion_rate thing <> Q2Qc 2.0.
Proof.
  intros Hbrown Hflour. split; [reflexivity|].
  assert (H : conversion_rate thing = Q2Qc 2.25).
  { unfold conversion_rate. fold (comparison_name thing).
    rewrite Hflour.
    destruct ("butter" =? comparison_name thing)%string eqn:Hbutter.
    - apply String.eqb_eq in Hbutter. rewrite <- Hbutter in Hbrown.
      discriminate Hbrown.
    - now rewrite Hbrown. }
  split; [exact H|]. rewrite H. qc_neq.
Qed.

Lemma brown_sugar_before_sugar_witness :
  conversion_rate "Brown Sugar"
    = first_match rate_rules (comparison_name "Brown Sugar") /\
  conversion_rate "Brown Sugar" = Q2Qc 2.25 /\
  conversion_rate "Brown Sugar" <> Q2Qc 2.0.
Proof.
  apply (brown_sugar_before_sugar "Brown Sugar"); reflexivity.
Defined.

(** Claim C7, as stated, fails: a name that contains "brown sugar" and also
    "flour" is caught by the flour rule, which comes first. *)
Lemma brown_sugar_with_flour :
  Str.contains "brown sugar" (comparison_name "Brown sugar and flour mix") = true /\
  conversion_rate "Brown sugar and flour mix" = Q2Qc 3.33 /\
  conversion_rate "Brown sugar and flour mix" <> Q2Qc 2.25.
Proof.
  split; [reflexivity|]. split; [reflexivity|]. qc_neq.
Qed.

(** Claim C8.  The rate depends on the name only through its lower-cased,
    trimmed form, and the rules match substrings of it: two names with the
    same normal form get the same rate. *)
Theorem conversion_rate_normalised a b :
  Str.strip (Str.lower a) = Str.strip (Str.lower b) ->
  conversion_rate a = conversion_rate b.
Proof.
  intro H. unfold conversion_rate. now rewrite H.
Qed.

Lemma conversion_rate_normalised_witness :
  conversion_rate "Flour" = Q2Qc 3.33 /\
  conversion_rate " flour " = Q2Qc 3.33 /\
  conversion_rate "FLOUR" = Q2Qc 3.33 /\
  conversion_rate "Whole Wheat Flour" = Q2Qc 3.33.
Proof.
  assert (Hflour : conversion_rate "flour" = Q2Qc 3.33) by reflexivity.
  split; [|split; [|split]].
  - now rewrite (conversion_rate_normalised "Flour" "flour" eq_refl).
  - now rewrite (conversion_rate_normalised " flour " "flour" eq_refl).
  - now rewrite (conversion_rate_normalised "FLOUR" "flour" eq_refl).
  - reflexivity.
Defined.

(** ** The loop of [calculate_recipe_prices] *)

Lemma check_special_cases_price ureg item item' :
  check_special_cases ureg item = Ok item' ->
  Ingredient.price item' = Ingredient.price item.
Proof.
  unfold check_special_cases.
  destruct (Ingredient.cost item) as [c|]; [|discriminate].
  destruct (special_case ureg _ _) as [[|]|e]; simpl; try discriminate.
  - destruct (convert_mass_to_volume ureg c _) as [c'|e]; simpl; [|discriminate].
    intro H. injection H as <-. reflexivity.
  - intro H. injection H as <-. reflexivity.
Qed.

Lemma calculate_items_length ureg items :
  List.length (memory (calculate_items ureg items)) = List.length items.
Proof.
  induction items as [|item rest IH]; [reflexivity|]. simpl.
  destruct (price_item ureg item) as [item' [|dm|e]]; simpl; now rewrite ?IH.
Qed.

Lemma calculate_items_app ureg pre items :
  calculate_items ureg (pre ++ items) =
    let first := calculate_items ureg pre in
    match raised first with
    | Some e => mkRun (memory first ++ items) (stdout first) (Some e)
    | None =>
        let second := calculate_items ureg items in
        mkRun (memory first ++ memory second) (stdout first ++ stdout second)
          (raised second)
    end.
Proof.
  induction pre as [|item rest IH]; simpl.
  - destruct (calculate_items ureg items); reflexivity.
  - destruct (price_item ureg item) as [item' [|dm|e]]; simpl;
      [| |reflexivity].
    + rewrite IH. simpl.
      destruct (raised (calculate_items ureg rest)); reflexivity.
    + rewrite IH. simpl.
      destruct (raised (calculate_items ureg rest)); reflexivity.
Qed.

Lemma drop_nth_app {A : Type} (pre : list A) (x : A) (post : list A) :
  drop_nth (List.length pre) (pre ++ x :: post) = (pre ++ post)%list.
Proof.
  unfold drop_nth.
  rewrite firstn_app, firstn_all, Nat.sub_diag. simpl. rewrite app_nil_r.
  f_equal. induction pre as [|y pre IH]; [reflexivity | exact IH].
Qed.

Lemma nth_error_middle {A : Type} (pre : list A) (x : A) (post : list A) :
  nth_error (pre ++ x :: post)%list (List.length pre) = Some x.
Proof.
  induction pre as [|y pre IH]; [reflexivity | exact IH].
Qed.

(** Claim C5.  When the conversion of an ingredient's cost to the
    ingredient's unit fails with a [DimensionalityError], the turn of the
    loop is skipped: the ingredient keeps the price it had (none), and the
    run goes on.  Every other ingredient ends exactly as it does in the recipe
    without the failing one, and the run ends the same way. *)
Theorem dimensionality_error_is_local ureg pre item post item' c src dst :
  check_special_cases ureg item = Ok item' ->
  Ingredient.cost item' = Some c ->
  convert ureg (Cost.quantity c) (Cost.measure c) (Ingredient.measure item')
    = Raise (DimensionalityError src dst) ->
  price_item ureg item = (item', Skipped (DimensionalityError src dst)) /\
  Ingredient.price item' = Ingredient.price item /\
  calculate_items ureg (item :: post)
  = after item' [Shown (DimensionalityError src dst)] (calculate_items ureg post) /\
  let with_item := calculate_items ureg (pre ++ item :: post) in
  let without := calculate_items ureg (pre ++ post) in
  raised with_item = raised without /\
  drop_nth (List.length pre) (memory with_item) = memory without /\
  exists left,
    nth_error (memory with_item) (List.length pre) = Some left /\
    Ingredient.price left = Ingredient.price item.
Proof.
  intros Hcheck Hc Hconv.
  assert (Hstep : price_item ureg item
                  = (item', Skipped (DimensionalityError src dst))).
  { rewrite price_item_unfold, Hcheck, Hc, Hconv. reflexivity. }
  pose proof (check_special_cases_price _ _ _ Hcheck) as Hprice.
  assert (Hloop : calculate_items ureg (item :: post)
                  = after item' [Shown (DimensionalityError src dst)]
                      (calculate_items ureg post)).
  { simpl. now rewrite Hstep. }
  split; [exact Hstep|]. split; [exact Hprice|]. split; [exact Hloop|].
  cbv zeta. rewrite !calculate_items_app. cbv zeta. rewrite Hloop.
  pose proof (calculate_items_length ureg pre) as Hlen.
  destruct (calculate_items ureg pre) as [mem out [e|]]; simpl in *;
    rewrite <- Hlen.
  - split; [reflexivity|]. split; [apply drop_nth_app|].
    exists item. split; [apply nth_error_middle | reflexivity].
  - split; [reflexivity|]. split; [apply drop_nth_app|].
    exists item'. split; [apply nth_error_middle | exact Hprice].
Qed.

Lemma dimensionality_error_is_local_witness :
  let with_item :=
    calculate_items Pint.default_registry
      ([Sample.flour] ++ Sample.bananas :: [Sample.flour_by_weight]) in
  let without :=
    calculate_items Pint.default_registry
      ([Sample.flour] ++ [Sample.flour_by_weight]) in
  raised with_item = raised without /\
  drop_nth 1 (memory with_item) = memory without /\
  exists left,
    nth_error (memory with_item) 1 = Some left /\
    Ingredient.price left = None.
Proof.
  apply (dimensionality_error_is_local Pint.default_registry
           [Sample.flour] Sample.bananas [Sample.flour_by_weight]
           (Ingredient.set_cost Sample.bananas
              (Cost.mk (Q2Qc 1.5) (Q2Qc 4) "cups"))
           (Cost.mk (Q2Qc 1.5) (Q2Qc 4) "cups") "cups" "count").
  - qc_eval.
  - reflexivity.
  - reflexivity.
Defined.

(** Bananas by count fail to convert; the flour before and after them is
    priced all the same and nothing is raised. *)
Example bananas_do_not_stop_the_run :
  let run :=
    calculate_items Pint.default_registry
      [Sample.flour; Sample.bananas; Sample.flour_by_weight] in
  map Ingredient.price (memory run)
  = [Some (Q2Qc 3 / Q2Qc 16.65 * Q2Qc 2.19); None; Some (Q2Qc 0.438)] /\
  stdout run = [Shown (DimensionalityError "cups" "count")] /\
  raised run = None.
Proof. cbv zeta. split; [|split]; qc_eval. Qed.

(** ** The report *)

Lemma truthy_zero : truthy (Some 0) = false.
Proof. reflexivity. Qed.

Lemma truthy_nonzero p : p <> 0 -> truthy (Some p) = true.
Proof. intro H. simpl. now rewrite (Qc_eq_bool_neq _ _ H). Qed.

(** The printed total is the sum of the prices that are present. *)
Lemma print_items_total items total :
  snd (print_items items total) = total + sum_prices items.
Proof.
  revert total. induction items as [|item rest IH]; intro total; simpl.
  - ring.
  - destruct (Ingredient.price item) as [p|]; simpl.
    + destruct (Qc_eq_bool p 0) eqn:Hp; simpl.
      * apply Qc_eq_bool_correct in Hp. subst p.
        destruct (print_items rest total) eqn:E. simpl.
        change q with (snd (l, q)). rewrite <- E, IH. ring.
      * destruct (print_items rest (total + p)) eqn:E. simpl.
        change q with (snd (l, q)). rewrite <- E, IH. ring.
    + destruct (print_items rest total) eqn:E. simpl.
      change q with (snd (l, q)). now rewrite <- E, IH.
Qed.

(** An ingredient with a non-zero price is listed with it; one without a
    price is flagged. *)
Lemma print_items_priced item rest total p :
  Ingredient.price item = Some p -> p <> 0 ->
  fst (print_items (item :: rest) total)
  = Money (Ingredient.thing item ++ ": ") p
      :: fst (print_items rest (total + p)).
Proof.
  intros Hp Hnz. simpl. rewrite Hp. simpl. rewrite (Qc_eq_bool_neq _ _ Hnz).
  simpl. now destruct (print_items rest (total + p)).
Qed.

Lemma print_items_unpriced item rest total :
  Ingredient.price item = None ->
  fst (print_items (item :: rest) total)
  = Text ("Don't have price for " ++ Ingredient.thing item)
      :: fst (print_items rest total).
Proof.
  intros Hp. simpl. rewrite Hp. simpl. now destruct (print_items rest total).
Qed.

(** Claim C4 at its failing input.  Water that cost nothing is priced at 0
    by [calculate_recipe_prices]; [print_recipe_costs] tests the price for
    truth, takes 0 for an absent price and reports the water as having no
    price. *)
Theorem free_ingredient_reported_unpriced :
  let run :=
    calculate_recipe_prices Pint.default_registry (Recipe.mk "tea" [Sample.water]) in
  raised run = None /\
  map Ingredient.price (memory run) = [Some 0] /\
  print_recipe_costs (Recipe.mk "tea" (memory run))
  = [ Text "Costs for recipe tea:";
      Text "Don't have price for water";
      Money "Total: " 0 ].
Proof. cbv zeta. split; [|split]; qc_eval. Qed.

(** ** What the calculation leaves alone *)

Lemma price_item_keeps ureg item :
  let item' := fst (price_item ureg item) in
  Ingredient.thing item' = Ingredient.thing item /\
  Ingredient.quantity item' = Ingredient.quantity item /\
  Ingredient.measure item' = Ingredient.measure item /\
  option_map Cost.money (Ingredient.cost item')
  = option_map Cost.money (Ingredient.cost item).
Proof.
  cbv zeta. rewrite price_item_unfold.
  destruct (check_special_cases ureg item) as [item1|e] eqn:Hcheck; simpl; [|auto].
  pose proof (check_special_cases_keeps _ _ _ Hcheck) as Hkeep.
  destruct (Ingredient.cost item1) as [c1|] eqn:Hc1; simpl;
    [|rewrite ?Hc1; exact Hkeep].
  destruct (convert ureg _ _ _) as [b|[]]; simpl; rewrite ?Hc1; try exact Hkeep.
  destruct (Qc_eq_bool b 0); simpl; rewrite ?Hc1; exact Hkeep.
Qed.

(** The calculation changes costs and prices only: the ingredients stay in
    the order of the recipe, each with its name, its quantity and its unit,
    and no cost ever changes the money that was paid. *)
Theorem calculate_items_keeps ureg items :
  let items' := memory (calculate_items ureg items) in
  map Ingredient.thing items' = map Ingredient.thing items /\
  map Ingredient.quantity items' = map Ingredient.quantity items /\
  map Ingredient.measure items' = map Ingredient.measure items /\
  map (fun item => option_map Cost.money (Ingredient.cost item)) items'
  = map (fun item => option_map Cost.money (Ingredient.cost item)) items.
Proof.
  cbv zeta. induction items as [|item rest IH]; simpl; [auto|].
  pose proof (price_item_keeps ureg item) as Hkeep. cbv zeta in Hkeep.
  destruct Hkeep as (Ht & Hq & Hm & Hc).
  destruct IH as (IHt & IHq & IHm & IHc).
  destruct (price_item ureg item) as [item' [|dm|e]]; simpl in *;
    rewrite Ht, Hq, Hm, Hc; rewrite ?IHt, ?IHq, ?IHm, ?IHc; auto.
Qed.

(** ** Running the calculation again *)

Lemma check_special_cases_set_price ureg item p :
  check_special_cases ureg (Ingredient.set_price item p)
  = (item' <- check_special_cases ureg item ;; Ok (Ingredient.set_price item' p)).
Proof.
  unfold check_special_cases. simpl.
  destruct (Ingredient.cost item) as [c|]; [|reflexivity].
  destruct (special_case ureg _ _) as [[|]|e]; simpl; try reflexivity.
  destruct (convert_mass_to_volume ureg c _) as [c'|e]; reflexivity.
Qed.

Lemma price_item_again ureg item :
  Pint.registry_ok ureg = true ->
  price_item ureg (fst (price_item ureg item)) = price_item ureg item.
Proof.
  intro Hok. rewrite (price_item_unfold ureg item).
  destruct (check_special_cases ureg item) as [item1|e] eqn:Hcheck; simpl.
  - pose proof (check_special_cases_stable ureg item item1 Hok Hcheck) as Hstable.
    destruct (Ingredient.cost item1) as [c1|] eqn:Hc1; simpl.
    + destruct (convert ureg _ _ _) as [b|e] eqn:Hconv.
      * destruct (Qc_eq_bool b 0) eqn:Hb; simpl.
        -- now rewrite price_item_unfold, Hstable, Hc1, Hconv, Hb.
        -- rewrite price_item_unfold, check_special_cases_set_price, Hstable.
           simpl. now rewrite Hc1, Hconv, Hb.
      * destruct e; simpl;
          now rewrite price_item_unfold, Hstable, Hc1, Hconv.
    + now rewrite price_item_unfold, Hstable, Hc1.
  - now rewrite price_item_unfold, Hcheck.
Qed.

(** Calculating a second time, on the ingredients as the first calculation
    left them, changes nothing: a cost already rewritten into cups is not
    converted again, every price comes out the same, the same failures are
    printed and the run ends the same way. *)
Theorem calculate_items_again ureg items :
  Pint.registry_ok ureg = true ->
  calculate_items ureg (memory (calculate_items ureg items))
  = calculate_items ureg items.
Proof.
  intro Hok. induction items as [|item rest IH]; [reflexivity|]. simpl.
  pose proof (price_item_again ureg item Hok) as Hagain.
  destruct (price_item ureg item) as [item' [|dm|e]]; simpl in *;
    rewrite Hagain; try rewrite IH; reflexivity.
Qed.

Lemma calculate_items_again_witness :
  calculate_items Pint.default_registry
    (memory (calculate_items Pint.default_registry
               [Sample.flour; Sample.bananas; Sample.nothing; Sample.water]))
  = calculate_items Pint.default_registry
      [Sample.flour; Sample.bananas; Sample.nothing; Sample.water].
Proof.
  apply (calculate_items_again Pint.default_registry
           [Sample.flour; Sample.bananas; Sample.nothing; Sample.water]).
  reflexivity.
Defined.

(** ** Exceptions that end the run *)

Lemma calculate_items_stops ureg pre item post e :
  raised (calculate_items ureg pre) = None ->
  snd (price_item ureg item) = Raised e ->
  calculate_items ureg (pre ++ item :: post)
  = mkRun (memory (calculate_items ureg pre) ++ fst (price_item ureg item) :: post)
      (stdout (calculate_items ureg pre)) (Some e).
Proof.
  intros Hpre Hitem. rewrite calculate_items_app. cbv zeta. rewrite Hpre. simpl.
  destruct (price_item ureg item) as [item' o]. simpl in Hitem. subst o. simpl.
  now rewrite app_nil_r.
Qed.

Lemma price_item_undefined_cost_unit ureg item c :
  Ingredient.cost item = Some c ->
  Pint.lookup ureg (Cost.measure c) = None ->
  price_item ureg item = (item, Raised (UndefinedUnitError (Cost.measure c))).
Proof.
  intros Hc Hcu.
  unfold price_item, check_special_cases, special_case, is_mass, Pint.getitem.
  now rewrite Hc, Hcu.
Qed.

Lemma price_item_undefined_item_unit ureg item c cu :
  Pint.registry_ok ureg = true ->
  Ingredient.cost item = Some c ->
  Pint.lookup ureg (Cost.measure c) = Some cu ->
  Pint.lookup ureg (Ingredient.measure item) = None ->
  price_item ureg item
  = (item, Raised (UndefinedUnitError (Ingredient.measure item))).
Proof.
  intros Hok Hc Hcu Hiu.
  unfold price_item, check_special_cases, special_case. rewrite Hc.
  rewrite (is_mass_lookup ureg Hok _ _ Hcu). simpl.
  destruct (Pint.dim_eqb (Pint.dimensionality cu) Pint.mass); simpl.
  - unfold is_mass, Pint.getitem. now rewrite Hiu.
  - rewrite Hc. unfold Pint.quantity, Pint.to, Pint.getitem.
    rewrite Hcu. simpl. now rewrite Hiu.
Qed.

(** A unit the registry does not know, on the cost or on the ingredient, is
    not a conversion failure that is skipped: it raises [UndefinedUnitError],
    the run ends at that ingredient, which is left as it was, and the
    ingredients after it are never looked at. *)
Theorem undefined_unit_ends_the_run ureg pre item post c :
  Pint.registry_ok ureg = true ->
  raised (calculate_items ureg pre) = None ->
  Ingredient.cost item = Some c ->
  Pint.lookup ureg (Cost.measure c) = None \/
  Pint.lookup ureg (Ingredient.measure item) = None ->
  exists name,
    (name = Cost.measure c \/ name = Ingredient.measure item) /\
    Pint.lookup ureg name = None /\
    calculate_items ureg (pre ++ item :: post)
    = mkRun (memory (calculate_items ureg pre) ++ item :: post)
        (stdout (calculate_items ureg pre)) (Some (UndefinedUnitError name)).
Proof.
  intros Hok Hpre Hc Hunknown.
  assert (H : exists name,
             (name = Cost.measure c \/ name = Ingredient.measure item) /\
             Pint.lookup ureg name = None /\
             price_item ureg item = (item, Raised (UndefinedUnitError name))).
  { destruct (Pint.lookup ureg (Cost.measure c)) as [cu|] eqn:Hcu.
    - destruct Hunknown as [H|Hiu]; [discriminate|].
      exists (Ingredient.measure item). split; [now right|]. split; [assumption|].
      now apply price_item_undefined_item_unit with (c := c) (cu := cu).
    - exists (Cost.measure c). split; [now left|]. split; [assumption|].
      now apply price_item_undefined_cost_unit. }
  destruct H as (name & Hname & Hnone & Hstep). exists name.
  split; [assumption|]. split; [assumption|].
  rewrite (calculate_items_stops ureg pre item post (UndefinedUnitError name));
    rewrite ?Hstep; auto.
Qed.

(** An ingredient that has no cost ends the run with [AttributeError]; it
    and the ingredients after it are left as they were. *)
Theorem missing_cost_ends_the_run ureg pre item post :
  raised (calculate_items ureg pre) = None ->
  Ingredient.cost item = None ->
  calculate_items ureg (pre ++ item :: post)
  = mkRun (memory (calculate_items ureg pre) ++ item :: post)
      (stdout (calculate_items ureg pre)) (Some AttributeError).
Proof.
  intros Hpre Hc.
  assert (Hstep : price_item ureg item = (item, Raised AttributeError)).
  { unfold price_item, check_special_cases. now rewrite Hc. }
  rewrite (calculate_items_stops ureg pre item post AttributeError);
    rewrite ?Hstep; auto.
Qed.

Lemma undefined_unit_ends_the_run_witness :
  exists name,
    (name = "each" \/ name = "each") /\
    Pint.lookup Pint.default_registry name = None /\
    calculate_items Pint.default_registry
      ([Sample.flour_by_weight] ++ Pantry.eggs :: [Sample.flour])
    = mkRun
        (memory (calculate_items Pint.default_registry [Sample.flour_by_weight])
         ++ Pantry.eggs :: [Sample.flour])
        (stdout (calculate_items Pint.default_registry [Sample.flour_by_weight]))
        (Some (UndefinedUnitError name)).
Proof.
  apply (undefined_unit_ends_the_run Pint.default_registry
           [Sample.flour_by_weight] Pantry.eggs [Sample.flour] Pantry.egg_cost).
  - reflexivity.
  - reflexivity.
  - reflexivity.
  - left. reflexivity.
Defined.

Lemma missing_cost_ends_the_run_witness :
  calculate_items Pint.default_registry
    ([Sample.flour_by_weight] ++ Pantry.salt :: [Sample.flour])
  = mkRun
      (memory (calculate_items Pint.default_registry [Sample.flour_by_weight])
       ++ Pantry.salt :: [Sample.flour])
      (stdout (calculate_items Pint.default_registry [Sample.flour_by_weight]))
      (Some AttributeError).
Proof.
  apply (missing_cost_ends_the_run Pint.default_registry
           [Sample.flour_by_weight] Pantry.salt [Sample.flour]); reflexivity.
Defined.

(** ** Bought by weight *)

Lemma Qcmult_nonzero (x y : Qc) : x <> 0 -> y <> 0 -> x * y <> 0.
Proof.
  intros Hx Hy H. apply Qcmult_integral in H. tauto.
Qed.

Lemma Qcpos_nonzero (x : Qc) : 0 < x -> x <> 0.
Proof.
  intros H E. apply Qclt_not_eq in H. congruence.
Qed.

(** The whole path for an ingredient bought by weight and used by volume:
    the conversions all succeed; the bulk quantity goes to pounds, times
    the rate of the ingredient's name into cups, from cups into the
    ingredient's own volume unit; the cost is left in memory in cups; and
    the price is the quantity used over that bulk, times the money -- unless
    that bulk is zero, where the division raises. *)
Theorem mass_bought_volume_used ureg item c cu iu :
  Pint.registry_ok ureg = true ->
  Ingredient.cost item = Some c ->
  Pint.lookup ureg (Cost.measure c) = Some cu ->
  Pint.dimensionality cu = Pint.mass ->
  Pint.lookup ureg (Ingredient.measure item) = Some iu ->
  Pint.dimensionality iu = Pint.volume ->
  exists lbs bulk,
    convert ureg (Cost.quantity c) (Cost.measure c) "pounds" = Ok lbs /\
    convert ureg (lbs * conversion_rate (Ingredient.thing item)) "cups"
      (Ingredient.measure item) = Ok bulk /\
    price_item ureg item
    = let item' :=
        Ingredient.set_cost item
          (Cost.mk (Cost.money c)
             (lbs * conversion_rate (Ingredient.thing item)) "cups") in
      if Qc_eq_bool bulk 0 then (item', Raised ZeroDivisionError)
      else
        (Ingredient.set_price item'
           (Ingredient.quantity item / bulk * Cost.money c), Priced).
Proof.
  intros Hok Hc Hcu Hm Hiu Hv.
  set (rate := conversion_rate (Ingredient.thing item)).
  destruct (convert_mass_to_volume_mass ureg Hok c rate cu Hcu Hm)
    as (p & Hp & Hlbs & Hrew).
  destruct (cups_defined ureg Hok) as (cp & Hcp & Hcpd).
  assert (Hcheck : check_special_cases ureg item
                   = Ok (Ingredient.set_cost item
                           (Cost.mk (Cost.money c)
                              (Cost.quantity c * (Pint.factor cu / Pint.factor p) * rate)
                              "cups"))).
  { unfold check_special_cases.
    rewrite Hc, (special_case_lookup ureg Hok _ _ _ _ Hcu Hiu), Hm, Hv. simpl.
    fold rate. now rewrite Hrew. }
  assert (Hbulk : convert ureg
                    (Cost.quantity c * (Pint.factor cu / Pint.factor p) * rate)
                    "cups" (Ingredient.measure item)
                  = Ok (Cost.quantity c * (Pint.factor cu / Pint.factor p) * rate
                        * (Pint.factor cp / Pint.factor iu))).
  { rewrite (convert_lookup _ _ _ _ _ _ Hcp Hiu), Hcpd, Hv. reflexivity. }
  eexists. eexists. split; [exact Hlbs|]. split; [exact Hbulk|].
  rewrite price_item_unfold, Hcheck. simpl. now rewrite Hbulk.
Qed.

Lemma mass_bought_volume_used_witness :
  exists lbs bulk,
    convert Pint.default_registry (Q2Qc 8) "ounces" "pounds" = Ok lbs /\
    convert Pint.default_registry (lbs * conversion_rate "cocoa") "cups"
      "tablespoons" = Ok bulk /\
    price_item Pint.default_registry Pantry.cocoa
    = let item' :=
        Ingredient.set_cost Pantry.cocoa
          (Cost.mk (Q2Qc 4) (lbs * conversion_rate "cocoa") "cups") in
      if Qc_eq_bool bulk 0 then (item', Raised ZeroDivisionError)
      else (Ingredient.set_price item' (Q2Qc 2 / bulk * Q2Qc 4), Priced).
Proof.
  apply (mass_bought_volume_used Pint.default_registry Pantry.cocoa
           Pantry.cocoa_cost Pint.ounce Pint.tablespoon);
    reflexivity.
Defined.

(** Half a pound of cocoa is 1.775 cups, 28.4 tablespoons; two of them cost
    2 / 28.4 of the four dollars. *)
Example cocoa_by_the_tablespoon :
  price_item Pint.default_registry Pantry.cocoa
  = (Ingredient.mk (Q2Qc 2) "tablespoons" "cocoa"
       (Some (Cost.mk (Q2Qc 4) (Q2Qc 1.775) "cups"))
       (Some (Q2Qc 2 / Q2Qc 28.4 * Q2Qc 4)),
     Priced).
Proof. qc_eval. Qed.

(** An ingredient bought by weight and used in a unit that is neither a
    mass nor a volume (a count, a length) is never priced: its cost is
    rewritten into cups all the same, the conversion from cups then fails
    with a [DimensionalityError], and the turn is skipped with the rewritten
    cost left in memory. *)
Theorem mass_bought_otherwise_used ureg item c cu iu :
  Pint.registry_ok ureg = true ->
  Ingredient.cost item = Some c ->
  Pint.lookup ureg (Cost.measure c) = Some cu ->
  Pint.dimensionality cu = Pint.mass ->
  Pint.lookup ureg (Ingredient.measure item) = Some iu ->
  Pint.dimensionality iu <> Pint.mass ->
  Pint.dimensionality iu <> Pint.volume ->
  exists c',
    convert_mass_to_volume ureg c (conversion_rate (Ingredient.thing item))
      = Ok c' /\
    Cost.measure c' = "cups" /\
    price_item ureg item
    = (Ingredient.set_cost item c',
       Skipped (DimensionalityError "cups" (Ingredient.measure item))).
Proof.
  intros Hok Hc Hcu Hm Hiu Hnm Hnv.
  set (rate := conversion_rate (Ingredient.thing item)).
  destruct (convert_mass_to_volume_mass ureg Hok c rate cu Hcu Hm)
    as (p & _ & _ & Hrew).
  destruct (cups_defined ureg Hok) as (cp & Hcp & Hcpd).
  eexists. split; [exact Hrew|]. split; [reflexivity|].
  assert (Hcheck : check_special_cases ureg item
                   = Ok (Ingredient.set_cost item
                           (Cost.mk (Cost.money c)
                              (Cost.quantity c * (Pint.factor cu / Pint.factor p) * rate)
                              "cups"))).
  { unfold check_special_cases.
    rewrite Hc, (special_case_lookup ureg Hok _ _ _ _ Hcu Hiu), Hm. simpl.
    destruct (Pint.dim_eqb (Pint.dimensionality iu) Pint.mass) eqn:E.
    - apply dim_eqb_eq in E. contradiction.
    - simpl. fold rate. now rewrite Hrew. }
  rewrite price_item_unfold, Hcheck. simpl.
  rewrite (convert_lookup _ _ _ _ _ _ Hcp Hiu), Hcpd.
  destruct (Pint.dim_eqb Pint.volume (Pint.dimensionality iu)) eqn:E;
    [|reflexivity].
  apply dim_eqb_eq in E. congruence.
Qed.

Lemma mass_bought_otherwise_used_witness :
  exists c',
    convert_mass_to_volume Pint.default_registry Pantry.lace_cost
      (conversion_rate "liquorice lace") = Ok c' /\
    Cost.measure c' = "cups" /\
    price_item Pint.default_registry Pantry.lace
    = (Ingredient.set_cost Pantry.lace c',
       Skipped (DimensionalityError "cups" "meters")).
Proof.
  apply (mass_bought_otherwise_used Pint.default_registry Pantry.lace
           Pantry.lace_cost Pint.pound Pint.meter);
    try reflexivity; discriminate.
Defined.

(** ** The price as a share of the money *)

Lemma Qcinv_nonneg (x : Qc) : 0 < x -> 0 <= / x.
Proof. intro H. apply Qclt_le_weak. now apply Qcinv_pos. Qed.

Lemma Qcshare_bounds (q b money : Qc) :
  0 < b -> 0 <= q -> 0 <= money ->
  0 <= q / b * money /\ (q <= b -> q / b * money <= money).
Proof.
  intros Hb Hq Hm. unfold Qcdiv.
  assert (Hfrac : 0 <= q * / b).
  { rewrite <- (Qcmult_0_l (/ b)).
    apply Qcmult_le_compat_r; [assumption | now apply Qcinv_nonneg]. }
  split.
  - rewrite <- (Qcmult_0_l money). now apply Qcmult_le_compat_r.
  - intro Hle. rewrite <- (Qcmult_1_l money) at 2.
    apply Qcmult_le_compat_r; [|assumption].
    rewrite <- (Qcmult_inv_r b) by now apply Qcpos_nonzero.
    apply Qcmult_le_compat_r; [assumption | now apply Qcinv_nonneg].
Qed.

(** With a positive bulk quantity, money that is not negative and a
    quantity used that is not negative, a price that gets set is never
    negative, and it is at most the money paid whenever the quantity used is
    at most the bulk (both in the ingredient's unit). *)
Theorem price_within_money ureg item item' c :
  Pint.registry_ok ureg = true ->
  Ingredient.cost item = Some c ->
  0 < Cost.quantity c ->
  0 <= Cost.money c ->
  0 <= Ingredient.quantity item ->
  price_item ureg item = (item', Priced) ->
  exists c' bulk p,
    Ingredient.cost item' = Some c' /\
    convert ureg (Cost.quantity c') (Cost.measure c') (Ingredient.measure item)
      = Ok bulk /\
    Ingredient.price item' = Some p /\
    0 <= p /\
    (Ingredient.quantity item <= bulk -> p <= Cost.money c).
Proof.
  intros Hok Hc Hpos Hmoney Hq. rewrite price_item_unfold.
  destruct (check_special_cases ureg item) as [item1|e] eqn:Hcheck;
    [|discriminate].
  destruct (check_special_cases_keeps _ _ _ Hcheck) as (_ & Hq1 & Hm1 & Hmoney1).
  destruct (Ingredient.cost item1) as [c1|] eqn:Hc1; [|discriminate].
  rewrite Hc in Hmoney1. simpl in Hmoney1. injection Hmoney1 as Hmoney1.
  destruct (convert ureg _ _ _) as [b|e] eqn:Hconv; [|destruct e; discriminate].
  destruct (Qc_eq_bool b 0); [discriminate|].
  intro H. injection H as <-.
  assert (Hb : 0 < b).
  { eapply convert_positive; [exact Hok| |exact Hconv].
    now apply (check_special_cases_positive ureg Hok item item1 c c1). }
  exists c1, b, (Ingredient.quantity item1 / b * Cost.money c1).
  simpl. rewrite <- Hm1. split; [assumption|]. split; [assumption|].
  split; [reflexivity|]. rewrite Hq1, Hmoney1.
  now apply Qcshare_bounds.
Qed.

Lemma price_within_money_witness :
  exists c' bulk p,
    Ingredient.cost
      (Ingredient.set_price Sample.flour_by_weight (Q2Qc 0.438)) = Some c' /\
    convert Pint.default_registry (Cost.quantity c') (Cost.measure c') "pounds"
      = Ok bulk /\
    Ingredient.price
      (Ingredient.set_price Sample.flour_by_weight (Q2Qc 0.438)) = Some p /\
    0 <= p /\
    (Q2Qc 1 <= bulk -> p <= Q2Qc 2.19).
Proof.
  apply (price_within_money Pint.default_registry Sample.flour_by_weight
           (Ingredient.set_price Sample.flour_by_weight (Q2Qc 0.438))
           Sample.flour_cost).
  - reflexivity.
  - reflexivity.
  - reflexivity.
  - vm_compute. discriminate.
  - vm_compute. discriminate.
  - qc_eval.
Defined.

(** ** The same purchase in another unit *)



(** ** The shape of the report *)

Lemma print_items_lines items total :
  Forall2
    (fun item line =>
       line = Text ("Don't have price for " ++ Ingredient.thing item) \/
       exists p,
         Ingredient.price item = Some p /\ p <> 0 /\
         line = Money (Ingredient.thing item ++ ": ") p)
    items (fst (print_items items total)).
Proof.
  revert total. induction items as [|item rest IH]; intro total; simpl.
  - constructor.
  - destruct (Ingredient.price item) as [p|] eqn:Hp; simpl.
    + destruct (Qc_eq_bool p 0) eqn:Hz; simpl.
      * specialize (IH total). destruct (print_items rest total). simpl in *.
        constructor; [now left | assumption].
      * specialize (IH (total + p)). destruct (print_items rest (total + p)).
        simpl in *. constructor; [|assumption].
        right. exists p. split; [exact Hp|]. split; [|reflexivity].
        intros ->. now rewrite Qc_eq_bool_refl in Hz.
    + specialize (IH total). destruct (print_items rest total). simpl in *.
      constructor; [now left | assumption].
Qed.

(** The report is the header, then one line for each ingredient in the
    order of the recipe -- its own non-zero price, or the notice that there
    is no price -- and last the total, which is the sum of all the prices
    that are present. *)
Theorem print_recipe_costs_shape recipe :
  exists body,
    print_recipe_costs recipe
    = (Text ("Costs for recipe " ++ Recipe.name recipe ++ ":") :: body
       ++ [Money "Total: " (sum_prices (Recipe.ingredients recipe))])%list /\
    Forall2
      (fun item line =>
         line = Text ("Don't have price for " ++ Ingredient.thing item) \/
         exists p,
           Ingredient.price item = Some p /\ p <> 0 /\
           line = Money (Ingredient.thing item ++ ": ") p)
      (Recipe.ingredients recipe) body.
Proof.
  unfold print_recipe_costs.
  pose proof (print_items_lines (Recipe.ingredients recipe) 0) as Hlines.
  pose proof (print_items_total (Recipe.ingredients recipe) 0) as Htotal.
  destruct (print_items (Recipe.ingredients recipe) 0) as [out total].
  simpl in *. exists out. split; [|assumption].
  now rewrite Htotal, Qcplus_0_l.
Qed.

(** ** A price is set by a turn that ends normally, and by no other *)

(** A turn of the loop that ends normally has set a price; a turn that is
    skipped or that raises leaves the price as it was, which for an
    ingredient fresh from the interview is no price at all. *)
Theorem price_only_when_priced ureg item :
  match snd (price_item ureg item) with
  | Priced => exists p, Ingredient.price (fst (price_item ureg item)) = Some p
  | Skipped _ | Raised _ =>
      Ingredient.price (fst (price_item ureg item)) = Ingredient.price item
  end.
Proof.
  rewrite price_item_unfold.
  destruct (check_special_cases ureg item) as [item1|e] eqn:Hcheck; simpl;
    [|reflexivity].
  pose proof (check_special_cases_price _ _ _ Hcheck) as Hprice.
  destruct (Ingredient.cost item1) as [c1|]; simpl; [|assumption].
  destruct (convert ureg _ _ _) as [b|[]]; simpl; try assumption.
  destruct (Qc_eq_bool b 0); simpl; [assumption|]. eexists. reflexivity.
Qed.

(** ** The interview *)

Section InterviewFacts.

Variable lower : string -> string.
Variable strip : string -> string.
Variable float : string -> Interview.attempt Qc.
Variable Fraction : string -> Interview.attempt Qc.

(** Consent is the first character typed: anything that does not start
    with Y or y ends the program with exit status 0 before a recipe is
    read, and an empty answer -- the default the prompt advertises -- raises
    [IndexError] instead. *)
Theorem read_recipe_without_consent c answer stdin :
  c <> "Y"%char -> c <> "y"%char ->
  Interview.read_recipe lower strip float Fraction (String c answer :: stdin)
  = Interview.Failed (Interview.SystemExit 0) /\
  Interview.read_recipe lower strip float Fraction ("" :: stdin) = Interview.Failed Interview.IndexError /\
  main Pint.default_registry lower strip float Fraction (String c answer :: stdin)
  = Interrupted (Interview.SystemExit 0) /\
  main Pint.default_registry lower strip float Fraction ("" :: stdin)
  = Interrupted Interview.IndexError.
Proof.
  intros HY Hy.
  assert (H : Interview.read_recipe lower strip float Fraction (String c answer :: stdin)
              = Interview.Failed (Interview.SystemExit 0)).
  { unfold Interview.read_recipe.
    apply Ascii.eqb_neq in HY, Hy. now rewrite HY, Hy. }
  split; [exact H|]. split; [reflexivity|]. split; [|reflexivity].
  unfold main. now rewrite H.
Qed.

(** Every ingredient that [read_recipe] reads is fresh -- no cost, no
    price -- and none of them is named "done" in any spelling; the lines
    read are three for each ingredient and the "done" that ended them. *)
Theorem read_ingredients_fresh items : forall stdin rest,
  Interview.read_ingredients lower strip float Fraction stdin
  = Interview.Done (items, rest) ->
  Forall
    (fun item =>
       Ingredient.cost item = None /\ Ingredient.price item = None /\
       strip (lower (Ingredient.thing item)) <> "done")
    items /\
  exists lines stop,
    stdin = (lines ++ stop :: rest)%list /\
    strip (lower stop) = "done" /\
    List.length lines = (3 * List.length items)%nat.
Proof.
  induction items as [|first others IH]; intros stdin rest;
    destruct stdin as [|item stdin]; simpl; try discriminate;
    destruct (strip (lower item) =? "done")%string eqn:Hdone.
  - intro H. injection H as <-. split; [constructor|].
    exists [], item. apply String.eqb_eq in Hdone. auto.
  - destruct stdin as [|qty [|measure stdin]]; try discriminate;
      destruct (Interview.read_quantity float Fraction qty); try discriminate.
    destruct (Interview.read_ingredients lower strip float Fraction stdin)
      as [[? ?]|]; discriminate.
  - discriminate.
  - destruct stdin as [|qty [|measure stdin]]; try discriminate;
      destruct (Interview.read_quantity float Fraction qty) as [q|];
      try discriminate.
    destruct (Interview.read_ingredients lower strip float Fraction stdin)
      as [[others' rest']|] eqn:Hrest; [|discriminate].
    intro H. injection H as <- <- <-.
    destruct (IH stdin rest' Hrest) as (Hfresh & lines & stop & -> & Hstop & Hlen).
    split.
    + constructor; [|assumption]. simpl. repeat split.
      apply String.eqb_neq in Hdone. exact Hdone.
    + exists (item :: qty :: measure :: lines), stop.
      split; [reflexivity|]. split; [assumption|]. simpl. lia.
Qed.

Lemma read_ingredients_next item qty measure stdin q :
  strip (lower item) <> "done" ->
  Interview.read_quantity float Fraction qty = Interview.Done q ->
  Interview.read_ingredients lower strip float Fraction (item :: qty :: measure :: stdin)
  = match Interview.read_ingredients lower strip float Fraction stdin with
    | Interview.Failed e => Interview.Failed e
    | Interview.Done (rest, stdin') =>
        Interview.Done (Ingredient.new q measure item :: rest, stdin')
    end.
Proof.
  intros Hname Hq. apply String.eqb_neq in Hname.
  cbn [Interview.read_ingredients]. now rewrite Hname, Hq.
Qed.

Lemma add_costs_items_next item others price qty measure stdin m q :
  float price = Interview.Done m ->
  Interview.read_quantity float Fraction qty = Interview.Done q ->
  Interview.add_costs_items float Fraction (item :: others)
    (price :: qty :: measure :: stdin)
  = match Interview.add_costs_items float Fraction others stdin with
    | Interview.Failed e => Interview.Failed e
    | Interview.Done (rest, stdin') =>
        Interview.Done
          (Ingredient.set_cost item (Cost.mk m q measure) :: rest, stdin')
    end.
Proof.
  intros Hm Hq. cbn [Interview.add_costs_items]. now rewrite Hm, Hq.
Qed.

Lemma read_ingredients_of_typed entries stop rest :
  Forall
    (fun entry =>
       Interview.read_quantity float Fraction (snd entry)
       = Interview.Done (Ingredient.quantity (fst entry)) /\
       strip (lower (Ingredient.thing (fst entry))) <> "done" /\
       Ingredient.cost (fst entry) = None /\
       Ingredient.price (fst entry) = None)
    entries ->
  strip (lower stop) = "done" ->
  Interview.read_ingredients lower strip float Fraction
    (Interview.typed_ingredients entries ++ stop :: rest)
  = Interview.Done (map fst entries, rest).
Proof.
  intros Hentries Hstop.
  induction Hentries as [|[item qty] entries (Hq & Hname & Hc & Hp) _ IH].
  - simpl. now rewrite Hstop.
  - cbn [fst snd] in *.
    change (Interview.typed_ingredients ((item, qty) :: entries) ++ stop :: rest)%list
      with (Ingredient.thing item :: qty :: Ingredient.measure item
            :: (Interview.typed_ingredients entries ++ stop :: rest))%list.
    rewrite (read_ingredients_next _ _ _ _ _ Hname Hq), IH.
    destruct item. simpl in *. subst. reflexivity.
Qed.

Lemma add_costs_items_of_typed items : forall entries rest,
  List.length entries = List.length items ->
  Forall
    (fun entry =>
       float (fst (snd entry)) = Interview.Done (Cost.money (fst entry)) /\
       Interview.read_quantity float Fraction (snd (snd entry))
       = Interview.Done (Cost.quantity (fst entry)))
    entries ->
  Interview.add_costs_items float Fraction items
    (Interview.typed_costs entries ++ rest)
  = Interview.Done
      (map (fun pair => Ingredient.set_cost (fst pair) (fst (snd pair)))
         (combine items entries),
       rest).
Proof.
  induction items as [|item others IH]; intros entries rest Hlen Hentries;
    destruct entries as [|[cost [money qty]] entries]; try discriminate.
  - reflexivity.
  - inversion Hentries as [|? ? (Hm & Hq) Hrest]; subst. cbn [fst snd] in *.
    change (Interview.typed_costs ((cost, (money, qty)) :: entries) ++ rest)%list
      with (money :: qty :: Cost.measure cost
            :: (Interview.typed_costs entries ++ rest))%list.
    rewrite (add_costs_items_next _ _ _ _ _ _ _ _ Hm Hq), IH;
      [|simpl in Hlen; lia|assumption].
    destruct cost. reflexivity.
Qed.

Lemma add_costs_items_costed items : forall stdin items' rest,
  Interview.add_costs_items float Fraction items stdin
  = Interview.Done (items', rest) ->
  Forall (fun item => Ingredient.cost item <> None) items'.
Proof.
  induction items as [|item others IH]; intros stdin items' rest; simpl.
  - intro H. injection H as <- <-. constructor.
  - destruct stdin as [|price stdin]; [discriminate|].
    destruct (float price) as [m|]; [|discriminate].
    destruct stdin as [|qty stdin]; [discriminate|].
    destruct (Interview.read_quantity float Fraction qty) as [q|]; [|discriminate].
    destruct stdin as [|measure stdin]; [discriminate|].
    destruct (Interview.add_costs_items float Fraction others stdin)
      as [[others' rest']|] eqn:Hrest; [|discriminate].
    intro H. injection H as <- <-.
    constructor; [discriminate | now apply (IH stdin others' rest')].
Qed.

(** What is typed is what is read: for ingredients without cost or price,
    none of them named "done", typing name, quantity and unit of each and
    then "done" in any spelling gives back exactly these ingredients, in
    order, and leaves the lines that follow unread. *)
Theorem read_ingredients_typed entries stop rest :
  Forall
    (fun entry =>
       Interview.read_quantity float Fraction (snd entry)
       = Interview.Done (Ingredient.quantity (fst entry)) /\
       strip (lower (Ingredient.thing (fst entry))) <> "done" /\
       Ingredient.cost (fst entry) = None /\
       Ingredient.price (fst entry) = None)
    entries ->
  strip (lower stop) = "done" ->
  Interview.read_ingredients lower strip float Fraction (Interview.typed_ingredients entries ++ stop :: rest)
  = Interview.Done (map fst entries, rest).
Proof.
  intros Hentries Hstop. now apply read_ingredients_of_typed.
Qed.

(** When [add_costs] succeeds, every ingredient has a cost, nothing else
    about the ingredients has changed, and exactly three lines were read for
    each of them. *)
Theorem add_costs_items_complete items : forall stdin items' rest,
  Interview.add_costs_items float Fraction items stdin = Interview.Done (items', rest) ->
  Forall (fun item => Ingredient.cost item <> None) items' /\
  map Ingredient.thing items' = map Ingredient.thing items /\
  map Ingredient.quantity items' = map Ingredient.quantity items /\
  map Ingredient.measure items' = map Ingredient.measure items /\
  map Ingredient.price items' = map Ingredient.price items /\
  exists lines,
    stdin = (lines ++ rest)%list /\
    List.length lines = (3 * List.length items)%nat.
Proof.
  induction items as [|item others IH]; intros stdin items' rest; simpl.
  - intro H. injection H as <- <-. repeat split; try constructor.
    exists []. auto.
  - destruct stdin as [|price stdin]; [discriminate|].
    destruct (float price) as [m|]; [|discriminate].
    destruct stdin as [|qty stdin]; [discriminate|].
    destruct (Interview.read_quantity float Fraction qty) as [q|]; [|discriminate].
    destruct stdin as [|measure stdin]; [discriminate|].
    destruct (Interview.add_costs_items float Fraction others stdin)
      as [[others' rest']|] eqn:Hrest; [|discriminate].
    intro H. injection H as <- <-.
    destruct (IH stdin others' rest' Hrest)
      as (Hcost & Ht & Hq & Hm & Hp & lines & -> & Hlen).
    split; [constructor; [discriminate | assumption]|]. simpl.
    rewrite Ht, Hq, Hm, Hp. repeat split.
    exists (price :: qty :: measure :: lines). split; [reflexivity|].
    simpl. lia.
Qed.

(** The costs typed go to the ingredients in order: with as many costs as
    ingredients, typing money, quantity and unit of each attaches the i-th
    cost to the i-th ingredient and leaves the lines that follow unread. *)
Theorem add_costs_items_typed items : forall entries rest,
  List.length entries = List.length items ->
  Forall
    (fun entry =>
       float (fst (snd entry)) = Interview.Done (Cost.money (fst entry)) /\
       Interview.read_quantity float Fraction (snd (snd entry))
       = Interview.Done (Cost.quantity (fst entry)))
    entries ->
  Interview.add_costs_items float Fraction items (Interview.typed_costs entries ++ rest)
  = Interview.Done
      (map (fun pair => Ingredient.set_cost (fst pair) (fst (snd pair)))
         (combine items entries),
       rest).
Proof.
  intros entries rest Hlen Hentries. now apply add_costs_items_of_typed.
Qed.

End InterviewFacts.

Lemma read_recipe_without_consent_witness :
  Interview.read_recipe Str.lower Str.strip Interview.decimal_float Interview.decimal_Fraction
    ["no"; "bread"; "flour"; "3"; "cups"; "done"]
  = Interview.Failed (Interview.SystemExit 0) /\
  Interview.read_recipe Str.lower Str.strip Interview.decimal_float Interview.decimal_Fraction
    [""; "bread"; "flour"; "3"; "cups"; "done"]
  = Interview.Failed Interview.IndexError /\
  main Pint.default_registry Str.lower Str.strip Interview.decimal_float Interview.decimal_Fraction
    ["no"; "bread"; "flour"; "3"; "cups"; "done"]
  = Interrupted (Interview.SystemExit 0) /\
  main Pint.default_registry Str.lower Str.strip Interview.decimal_float Interview.decimal_Fraction
    [""; "bread"; "flour"; "3"; "cups"; "done"]
  = Interrupted Interview.IndexError.
Proof.
  apply (read_recipe_without_consent Str.lower Str.strip
           Interview.decimal_float Interview.decimal_Fraction "n"%char "o"
           ["bread"; "flour"; "3"; "cups"; "done"]); discriminate.
Defined.

Lemma read_ingredients_fresh_witness :
  Forall
    (fun item =>
       Ingredient.cost item = None /\ Ingredient.price item = None /\
       comparison_name (Ingredient.thing item) <> "done")
    [Ingredient.new (Q2Qc 3) "cups" "flour";
     Ingredient.new (Q2Qc 1.5) "cups" "Brown Sugar"] /\
  exists lines stop,
    ["flour"; "3"; "cups"; "Brown Sugar"; "1 1/2"; "cups"; "DONE "; "2.19"]
    = (lines ++ stop :: ["2.19"])%list /\
    comparison_name stop = "done" /\
    List.length lines = (3 * 2)%nat.
Proof.
  apply (read_ingredients_fresh Str.lower Str.strip Interview.decimal_float
           Interview.decimal_Fraction
           [Ingredient.new (Q2Qc 3) "cups" "flour";
            Ingredient.new (Q2Qc 1.5) "cups" "Brown Sugar"]
           ["flour"; "3"; "cups"; "Brown Sugar"; "1 1/2"; "cups"; "DONE "; "2.19"]
           ["2.19"]).
  qc_eval.
Defined.

Lemma read_ingredients_typed_witness :
  Interview.read_ingredients Str.lower Str.strip Interview.decimal_float Interview.decimal_Fraction
    (Interview.typed_ingredients
       [(Ingredient.new (Q2Qc 3) "cups" "flour", "3");
        (Ingredient.new (Q2Qc 1.5) "cups" "Brown Sugar", "1 1/2")]
     ++ " Done" :: ["2.19"; "5"; "pounds"])
  = Interview.Done
      (map fst
         [(Ingredient.new (Q2Qc 3) "cups" "flour", "3");
          (Ingredient.new (Q2Qc 1.5) "cups" "Brown Sugar", "1 1/2")],
       ["2.19"; "5"; "pounds"]).
Proof.
  apply (read_ingredients_typed Str.lower Str.strip Interview.decimal_float
           Interview.decimal_Fraction).
  - repeat constructor; try qc_eval; intro H; discriminate H.
  - reflexivity.
Defined.

Lemma add_costs_items_complete_witness :
  Forall (fun item => Ingredient.cost item <> None) [Sample.flour] /\
  map Ingredient.thing [Sample.flour] = ["flour"] /\
  map Ingredient.quantity [Sample.flour] = [Q2Qc 3] /\
  map Ingredient.measure [Sample.flour] = ["cups"] /\
  map Ingredient.price [Sample.flour] = [None] /\
  exists lines,
    ["2.19"; "5"; "pounds"; "left over"] = (lines ++ ["left over"])%list /\
    List.length lines = (3 * 1)%nat.
Proof.
  apply (add_costs_items_complete Interview.decimal_float
           Interview.decimal_Fraction
           [Ingredient.new (Q2Qc 3) "cups" "flour"]
           ["2.19"; "5"; "pounds"; "left over"] [Sample.flour] ["left over"]).
  qc_eval.
Defined.

Lemma add_costs_items_typed_witness :
  Interview.add_costs_items Interview.decimal_float Interview.decimal_Fraction
    [Ingredient.new (Q2Qc 3) "cups" "flour";
     Ingredient.new (Q2Qc 2) "tablespoons" "cocoa"]
    (Interview.typed_costs
       [(Sample.flour_cost, ("2.19", "5"));
        (Pantry.cocoa_cost_in_pounds, ("4", "1/2"))]
     ++ [])
  = Interview.Done
      (map (fun pair => Ingredient.set_cost (fst pair) (fst (snd pair)))
         (combine
            [Ingredient.new (Q2Qc 3) "cups" "flour";
             Ingredient.new (Q2Qc 2) "tablespoons" "cocoa"]
            [(Sample.flour_cost, ("2.19", "5"));
             (Pantry.cocoa_cost_in_pounds, ("4", "1/2"))]),
       []).
Proof.
  apply (add_costs_items_typed Interview.decimal_float
           Interview.decimal_Fraction).
  - reflexivity.
  - repeat constructor; qc_eval.
Defined.

(** ** The program as a whole *)

Lemma price_item_with_cost ureg item c :
  Ingredient.cost item = Some c ->
  snd (price_item ureg item) <> Raised AttributeError.
Proof.
  intro Hc.
  unfold price_item, check_special_cases, special_case, is_mass,
    convert_mass_to_volume, Pint.quantity, Pint.to, Pint.getitem, bind.
  rewrite Hc.
  split_matches; simpl in *; try discriminate; congruence.
Qed.

(** Once the interview is over every ingredient has a cost, so however the
    program ends, it is never by the [AttributeError] of a missing cost. *)
Theorem main_has_every_cost ureg lower strip float Fraction stdin out :
  main ureg lower strip float Fraction stdin <> Crashed out AttributeError.
Proof.
  unfold main, Interview.add_costs, calculate_recipe_prices.
  destruct (Interview.read_recipe lower strip float Fraction stdin) as [[recipe stdin1]|e];
    [|discriminate].
  destruct (Interview.add_costs_items float Fraction (Recipe.ingredients recipe)
              stdin1) as [[items stdin2]|e] eqn:Hcosts; [|discriminate].
  simpl.
  destruct (raised (calculate_items ureg items)) as [e|] eqn:Hraised;
    [|discriminate].
  intro H. injection H as _ ->.
  apply calculate_items_raised in Hraised.
  destruct Hraised as (item & Hin & Hitem).
  pose proof (add_costs_items_costed float Fraction _ _ _ _ Hcosts) as Hall.
  rewrite Forall_forall in Hall. specialize (Hall item Hin).
  destruct (Ingredient.cost item) as [c|] eqn:Hc; [|contradiction].
  now apply (price_item_with_cost ureg item c Hc).
Qed.

(** From what is typed to what is printed: three cups of flour from a
    five-pound bag and a cup and a half of brown sugar from an eight-ounce
    box. *)
Example bread_from_the_keyboard :
  main Pint.default_registry Str.lower Str.strip Interview.decimal_float Interview.decimal_Fraction
    [ "y"; "bread";
      "flour"; "3"; "cups";
      "Brown Sugar"; "1 1/2"; "cups";
      "done";
      "2.19"; "5"; "pounds";
      "4.50"; "8"; "ounces" ]
  = Reported
      [ Text "Costs for recipe bread:";
        Money "flour: " (Q2Qc 3 / Q2Qc 16.65 * Q2Qc 2.19);
        Money "Brown Sugar: " (Q2Qc 1.5 / Q2Qc 1.125 * Q2Qc 4.5);
        Money "Total: "
          (Q2Qc 3 / Q2Qc 16.65 * Q2Qc 2.19 + Q2Qc 1.5 / Q2Qc 1.125 * Q2Qc 4.5) ].
Proof. qc_eval. Qed.

(** The fractions of the interview: "1 1/2" is 1.5 and "3/4" is 0.75; a
    slash with spaces around it is not a fraction, and a zero denominator
    raises. *)
Example read_quantity_fractions :
  Interview.read_quantity Interview.decimal_float Interview.decimal_Fraction
    "1 1/2" = Interview.Done (Q2Qc 1.5) /\
  Interview.read_quantity Interview.decimal_float Interview.decimal_Fraction
    "3/4" = Interview.Done (Q2Qc 0.75) /\
  Interview.read_quantity Interview.decimal_float Interview.decimal_Fraction
    "1 / 2" = Interview.Failed (Interview.ValueError "/") /\
  Interview.read_quantity Interview.decimal_float Interview.decimal_Fraction
    "1/0" = Interview.Failed Interview.ZeroDivisionError.
Proof. split; [|split; [|split]]; qc_eval. Qed.

(** ** Bought by volume or by count *)

(** The heuristic works one way only.  An ingredient whose cost is not in a
    mass unit -- bought by volume or by count -- and that is used in a unit
    of another kind, by weight say, is skipped with a
    [DimensionalityError], and neither its cost nor anything else about it
    is touched. *)
Theorem other_mismatch_is_skipped ureg item c cu iu :
  Pint.registry_ok ureg = true ->
  Ingredient.cost item = Some c ->
  Pint.lookup ureg (Cost.measure c) = Some cu ->
  Pint.dimensionality cu <> Pint.mass ->
  Pint.lookup ureg (Ingredient.measure item) = Some iu ->
  Pint.dimensionality iu <> Pint.dimensionality cu ->
  price_item ureg item
  = (item,
     Skipped (DimensionalityError (Cost.measure c) (Ingredient.measure item))).
Proof.
  intros Hok Hc Hcu Hnm Hiu Hdiff.
  assert (Hcheck : check_special_cases ureg item = Ok item).
  { apply check_special_cases_unchanged with (c := c); [assumption|].
    apply special_case_not_mass with (cu := cu); try assumption.
    destruct (Pint.dim_eqb (Pint.dimensionality cu) Pint.mass) eqn:E;
      [|reflexivity].
    apply dim_eqb_eq in E. contradiction. }
  rewrite price_item_unfold, Hcheck, Hc.
  rewrite (convert_lookup _ _ _ _ _ _ Hcu Hiu).
  destruct (Pint.dim_eqb (Pint.dimensionality cu) (Pint.dimensionality iu)) eqn:E;
    [|reflexivity].
  apply dim_eqb_eq in E. congruence.
Qed.

Lemma other_mismatch_is_skipped_witness :
  price_item Pint.default_registry
    (Ingredient.set_cost (Ingredient.new (Q2Qc 250) "grams" "milk")
       Sample.water_cost)
  = (Ingredient.set_cost (Ingredient.new (Q2Qc 250) "grams" "milk")
       Sample.water_cost,
     Skipped (DimensionalityError "liters" "grams")).
Proof.
  apply (other_mismatch_is_skipped Pint.default_registry
           (Ingredient.set_cost (Ingredient.new (Q2Qc 250) "grams" "milk")
              Sample.water_cost)
           Sample.water_cost Pint.liter Pint.gram);
    try reflexivity; discriminate.
Defined.

(** ** The rules that do not count *)

(** The "butter" rule never changes a rate: it asks for the name to be
    exactly "butter", which then matches no other rule, and it gives the
    default.  The rate is the one the other four rules give. *)
Theorem butter_rule_is_redundant thing :
  conversion_rate thing
  = first_match
      [ (Str.contains "flour", Q2Qc 3.33);
        (Str.contains "brown sugar", Q2Qc 2.25);
        (Str.contains "sugar", Q2Qc 2.0);
        (Str.contains "cocoa", Q2Qc 3.55) ]
      (comparison_name thing).
Proof.
  unfold conversion_rate. fold (comparison_name thing). cbn [first_match].
  destruct (Str.contains "flour" (comparison_name thing)); [reflexivity|].
  destruct ("butter" =? comparison_name thing)%string eqn:E; [|reflexivity].
  apply String.eqb_eq in E. rewrite <- E. reflexivity.
Qed.

(** ** From the keyboard to the report *)

Section ProgramFacts.

Variable ureg : Pint.UnitRegistry.
Variable lower : string -> string.
Variable strip : string -> string.
Variable float : string -> Interview.attempt Qc.
Variable Fraction : string -> Interview.attempt Qc.

(** The program is the calculation and the report on what was typed.
    After a consent that starts with Y or y and the name of the recipe, the
    ingredients typed up to "done" and then one cost for each are paired
    in order; the run ends as the calculation on these ingredients ends,
    with the report of it when nothing was raised, and whatever is typed
    after the last cost is never read. *)
Theorem main_of_typed c answer name entries stop costs rest :
  c = "Y"%char \/ c = "y"%char ->
  Forall
    (fun entry =>
       Interview.read_quantity float Fraction (snd entry)
       = Interview.Done (Ingredient.quantity (fst entry)) /\
       strip (lower (Ingredient.thing (fst entry))) <> "done" /\
       Ingredient.cost (fst entry) = None /\
       Ingredient.price (fst entry) = None)
    entries ->
  strip (lower stop) = "done" ->
  List.length costs = List.length entries ->
  Forall
    (fun entry =>
       float (fst (snd entry)) = Interview.Done (Cost.money (fst entry)) /\
       Interview.read_quantity float Fraction (snd (snd entry))
       = Interview.Done (Cost.quantity (fst entry)))
    costs ->
  main ureg lower strip float Fraction
    (String c answer :: name
     :: Interview.typed_ingredients entries
     ++ stop :: Interview.typed_costs costs ++ rest)
  = let run :=
      calculate_items ureg
        (map (fun pair => Ingredient.set_cost (fst pair) (fst (snd pair)))
           (combine (map fst entries) costs)) in
    match raised run with
    | Some e => Crashed (stdout run) e
    | None =>
        Reported (stdout run ++ print_recipe_costs (Recipe.mk name (memory run)))
    end.
Proof.
  intros Hc Hentries Hstop Hlen Hcosts.
  unfold main, Interview.read_recipe.
  assert (Hyes : negb ((c =? "Y")%char || (c =? "y")%char) = false).
  { destruct Hc as [-> | ->]; reflexivity. }
  rewrite Hyes.
  rewrite (read_ingredients_of_typed lower strip float Fraction entries stop _
             Hentries Hstop).
  unfold Interview.add_costs. cbn [Recipe.ingredients Recipe.name].
  rewrite (add_costs_items_of_typed float Fraction (map fst entries) costs rest);
    [reflexivity | now rewrite length_map | assumption].
Qed.

End ProgramFacts.

Lemma main_of_typed_witness :
  main Pint.default_registry Str.lower Str.strip Interview.decimal_float Interview.decimal_Fraction
    ("yes" :: "bread"
     :: Interview.typed_ingredients
          [(Ingredient.new (Q2Qc 3) "cups" "flour", "3");
           (Ingredient.new (Q2Qc 3) "count" "bananas", "3")]
     ++ "Done"
     :: Interview.typed_costs
          [(Sample.flour_cost, ("2.19", "5"));
           (Sample.banana_cost, ("1.50", "2"))]
     ++ ["never read"])
  = let run :=
      calculate_items Pint.default_registry
        (map (fun pair => Ingredient.set_cost (fst pair) (fst (snd pair)))
           (combine
              (map fst
                 [(Ingredient.new (Q2Qc 3) "cups" "flour", "3");
                  (Ingredient.new (Q2Qc 3) "count" "bananas", "3")])
              [(Sample.flour_cost, ("2.19", "5"));
               (Sample.banana_cost, ("1.50", "2"))])) in
    match raised run with
    | Some e => Crashed (stdout run) e
    | None =>
        Reported
          (stdout run ++ print_recipe_costs (Recipe.mk "bread" (memory run)))
    end.
Proof.
  apply (main_of_typed Pint.default_registry Str.lower Str.strip
           Interview.decimal_float Interview.decimal_Fraction
           "y"%char "es" "bread").
  - right. reflexivity.
  - repeat constructor; try qc_eval; intro H; discriminate H.
  - reflexivity.
  - reflexivity.
  - repeat constructor; qc_eval.
Defined.
